(** * YOLO-World detectors: a shallow embedding of
      [yolo_world/models/detectors/yolo_world.py]

    The module defines two detector classes on top of an object-detection
    framework.  The framework objects the detectors call into (backbone,
    neck, detection head, contrastive heads, sample attachment, the file
    and random sources used at construction) are collaborators: they are
    taken as an interface, see [Framework] and [InitEnv] below.

    Numbers.  Tensor entries are modelled as real numbers: sums, products
    and quotients are exact.  The one rounding that is modelled is the
    conversion to single precision at construction ([.float()], see
    [Torch.float32]); a value that overflows to an infinity there has no
    real to stand for it and lies outside the model.  Python control flow,
    exceptions, attribute lookups and the shapes of tensors are modelled as
    the code has them. *)

From Stdlib Require Import Reals Lra Lia List ZArith String Bool.
From stdpp Require Import base option gmap strings.
Import ListNotations.

(* ================================================================== *)
(** * Python values, exceptions and results                            *)
(* ================================================================== *)

(** The exceptions the module raises itself or provokes in the
    interpreter and the tensor runtime. *)
Inductive Exn : Set :=
| TypeError
| IndexError
| AttributeError
| AssertionError
| KeyError
| RuntimeError.

Inductive Result (A : Type) : Type :=
| Ok (a : A)
| Raise (e : Exn).
Arguments Ok {A} a.
Arguments Raise {A} e.

#[global] Instance Result_ret : MRet Result := fun A a => Ok a.
#[global] Instance Result_bind : MBind Result := fun A B f r =>
  match r with
  | Ok a => f a
  | Raise e => Raise e
  end.

#[local] Unset Elimination Schemes.
(** Dynamically typed arguments: [batch_data_samples], [texts] and the
    entries of the text lists.  [PyObj] is an instance with named
    attributes (a data sample), [PyDict] a [dict] with string keys. *)
Inductive PyVal : Type :=
| PyNone
| PyStr (s : string)
| PyNum (z : Z)
| PyList (xs : list PyVal)
| PyTuple (xs : list PyVal)
| PyDict (kvs : gmap string PyVal)
| PyObj (attrs : gmap string PyVal).
#[local] Set Elimination Schemes.

Module Py.

(** [v is None] *)
Definition is_none (v : PyVal) : bool :=
  match v with PyNone => true | _ => false end.

(** [isinstance(v, str)] *)
Definition isinstance_str (v : PyVal) : bool :=
  match v with PyStr _ => true | _ => false end.

(** [isinstance(v, dict) and key in v] *)
Definition is_dict_with (key : string) (v : PyVal) : bool :=
  match v with
  | PyDict kvs => bool_decide (is_Some (kvs !! key))
  | _ => false
  end.

(** [v[key]] with a string key *)
Definition subscript (key : string) (v : PyVal) : Result PyVal :=
  match v with
  | PyDict kvs =>
      match kvs !! key with
      | Some x => Ok x
      | None => Raise KeyError
      end
  | _ => Raise TypeError
  end.

(** [xs[0]] on a list *)
Definition index0 {A} (xs : list A) : Result A :=
  match xs with
  | x :: _ => Ok x
  | [] => Raise IndexError
  end.

(** [hasattr(v, name)]: only instances carry user attributes. *)
Definition hasattr (name : string) (v : PyVal) : bool :=
  match v with
  | PyObj attrs => bool_decide (is_Some (attrs !! name))
  | _ => false
  end.

(** [v.name] *)
Definition getattr (name : string) (v : PyVal) : Result PyVal :=
  match v with
  | PyObj attrs =>
      match attrs !! name with
      | Some x => Ok x
      | None => Raise AttributeError
      end
  | _ => Raise AttributeError
  end.

(** [isinstance(v, list) and hasattr(v[0], name)]: the subscript is
    evaluated for every list, also the empty one. *)
Definition is_list_whose_first_has (name : string) (v : PyVal)
  : Result bool :=
  match v with
  | PyList xs => x0 ← index0 xs; Ok (hasattr name x0)
  | _ => Ok false
  end.

(** [[f(x) for x in xs]]: stops at the first exception. *)
Fixpoint comprehension {A B} (f : A -> Result B) (xs : list A)
  : Result (list B) :=
  match xs with
  | [] => Ok []
  | x :: xs' =>
      y ← f x; ys ← comprehension f xs'; Ok (y :: ys)
  end.

(** [[x.name for x in v]] *)
Definition gather_attr (name : string) (v : PyVal) : Result PyVal :=
  match v with
  | PyList xs => ys ← comprehension (getattr name) xs; Ok (PyList ys)
  | _ => Raise TypeError
  end.

End Py.

(* ================================================================== *)
(** * Tensors and the tensor-runtime operations the module uses        *)
(* ================================================================== *)

Abbreviation Vec := (list R).
Abbreviation Mat := (list (list R)).
Abbreviation T3 := (list (list (list R))).

#[global] Instance Rlt_decision : RelDecision Rlt := Rlt_dec.

Module Torch.

(** [1e-12] *)
Definition eps : R := (/ 10 ^ 12)%R.

(** [x.sigmoid()] *)
Definition sigmoid (x : R) : R := (1 / (1 + exp (- x)))%R.

Definition sigmoid_mat (m : Mat) : Mat := map (map sigmoid) m.

(** [v.sum()] *)
Definition sum (v : Vec) : R := fold_right Rplus 0%R v.

(** A nested list is the tensor of shape [(C, V)]. *)
Definition has_shape (C V : nat) (m : Mat) : bool :=
  (length m =? C) && forallb (fun r => length r =? V) m.

(** [torch.stack(ts, dim=0)]: needs a non-empty list of tensors of one
    shape. *)
Definition stack (ts : list Mat) : Result T3 :=
  match ts with
  | [] => Raise RuntimeError
  | m :: _ =>
      if forallb (has_shape (length m) (length (hd [] m))) ts
      then Ok ts
      else Raise RuntimeError
  end.

(** [m[:, v]] *)
Definition column (v : nat) (m : Mat) : Vec :=
  map (fun r => nth v r 0%R) m.

(** [m.permute(1, 0)] of a tensor with [n] columns. *)
Definition permute_10 (n : nat) (m : Mat) : Mat :=
  map (fun j => column j m) (seq 0 n).

(** [t.permute(2, 0, 1)] of a tensor of shape [(H, C, V)]:
    the result has shape [(V, H, C)]. *)
Definition permute_201 (V : nat) (t : T3) : T3 :=
  map (fun v => map (column v) t) (seq 0 V).

(** Element-wise sum of two tensors of one shape. *)
Definition vadd (a b : Vec) : Vec := zip_with Rplus a b.
Definition madd (a b : Mat) : Mat := zip_with vadd a b.

(** [t.mean(dim=0)] of a stacked tensor [(H, C, V)]. *)
Definition mean_dim0 (t : T3) : Mat :=
  match t with
  | [] => []
  | m :: ms =>
      map (map (fun x => (x / INR (length t))%R)) (fold_left madd ms m)
  end.

(** [m[:, -1]] and [m[:, :-1]]; the index needs a last channel. *)
Definition last_channel (m : Mat) : Result Vec :=
  Py.comprehension
    (fun r => match r with
              | [] => Raise IndexError
              | _ => Ok (List.last r 0%R)
              end) m.

Definition drop_last_channel (m : Mat) : Mat := map (@removelast R) m.

(** [u < 0.5] *)
Definition lt_half (u : Vec) : list bool :=
  map (fun x => bool_decide (x < 1 / 2)%R) u.

(** [w[mask] = w[mask] / (w[mask].sum(dim=1, keepdim=True) + 1e-12)]:
    the rows selected by the mask are divided by their sum plus
    epsilon, the other rows are kept. *)
Definition normalize_row (r : Vec) : Vec :=
  map (fun x => (x / (sum r + eps))%R) r.

Definition masked_normalize (mask : list bool) (w : Mat) : Mat :=
  zip_with (fun (b : bool) r => if b then normalize_row r else r) mask w.

(** Broadcasting of one dimension: equal sizes pair up, a size of one
    is repeated, anything else is a shape error. *)
Definition broadcast {A B C} (f : A -> B -> Result C)
    (xs : list A) (ys : list B) : Result (list C) :=
  if length xs =? length ys then
    Py.comprehension (fun p => f p.1 p.2) (zip xs ys)
  else
    match xs, ys with
    | [x], _ => Py.comprehension (f x) ys
    | _, [y] => Py.comprehension (fun x => f x y) xs
    | _, _ => Raise RuntimeError
    end.

(** [row * w] for [row] of shape [(C)] and [w] of shape [(1)]. *)
Definition scale_row (row : Vec) (w : R) : Result Vec :=
  Ok (map (fun x => (x * w)%R) row).

(** [t * w[..., None]] for [t] of shape [(V, H, C)] and [w] of shape
    [(V', H')]. *)
Definition mul_weights (t : T3) (w : Mat) : Result T3 :=
  broadcast (broadcast scale_row) t w.

(** [t.sum(dim=1)] of a tensor [(V, H, C)]. *)
Definition sum_rows (C : nat) (rows : Mat) : Vec :=
  fold_right vadd (repeat 0%R C) rows.

Definition sum_dim1 (C : nat) (t : T3) : Mat := map (sum_rows C) t.

(** [torch.max(m, dim=0)]: for every column the largest entry and the
    index of its first occurrence; the reduced dimension must not be
    empty. *)
Fixpoint max_from (best : R) (besti i : nat) (xs : Vec) : R * nat :=
  match xs with
  | [] => (best, besti)
  | x :: xs' =>
      if decide (best < x)%R
      then max_from x i (S i) xs'
      else max_from best besti (S i) xs'
  end.

Definition max_dim0 (m : Mat) : Result (Vec * list nat) :=
  match m with
  | [] => Raise IndexError
  | r0 :: rest =>
      let cols :=
        map (fun v => max_from (nth v r0 0%R) 0 1 (column v rest))
            (seq 0 (length r0)) in
      Ok (map fst cols, map snd cols)
  end.

(** [t.reshape(-1, 1, t.shape[-1])] of a tensor [(N, D)]. *)
Definition reshape_rows (t : Mat) : T3 := map (fun r => [r]) t.

(** [torch.nn.functional.normalize(x, p=2, dim=-1)]: every vector of the
    last dimension is divided by [max(norm, 1e-12)]. *)
Definition norm2 (v : Vec) : R := sqrt (sum (map (fun x => (x * x)%R) v)).

Definition normalize (v : Vec) : Vec :=
  map (fun x => (x / Rmax (norm2 v) eps)%R) v.

(** [torch.nn.Linear]: [y = x W^T + b], with [W] of shape
    [(out_features, in_features)]. *)
Record Linear : Type := {
  weight : Mat;
  bias : Vec
}.

Definition dot (a b : Vec) : R := sum (zip_with Rmult a b).

Definition linear (l : Linear) (x : Vec) : Result Vec :=
  if forallb (fun w => length w =? length x) (weight l)
     && (length (bias l) =? length (weight l))
  then Ok (vadd (map (fun w => dot x w) (weight l)) (bias l))
  else Raise RuntimeError.

(** [torch.nn.ReLU] *)
Definition relu (v : Vec) : Vec := map (Rmax 0) v.

(** The conversion to single precision (IEEE binary32: 24 significant
    bits, exponents from -126, subnormal numbers below), rounding to the
    nearest representable number and on a tie to the one with the even
    significand.  [mag x] is the binary exponent of [x], the floor of
    the base-2 logarithm of its magnitude; the neighbours of [x] are
    spaced by [2 ^ ulp_exponent x]. *)
Definition mag (x : R) : Z := Int_part (ln (Rabs x) / ln 2).

Definition ulp_exponent (x : R) : Z := Z.max (mag x) (-126) - 23.

Definition round_even (r : R) : Z :=
  let f := Int_part r in
  let d := (r - IZR f)%R in
  if decide (d < 1 / 2)%R then f
  else if decide (1 / 2 < d)%R then (f + 1)%Z
  else if Z.even f then f else (f + 1)%Z.

Definition float32 (x : R) : R :=
  let k := ulp_exponent x in
  (IZR (round_even (x / powerRZ 2 k)) * powerRZ 2 k)%R.

(** The magnitudes the conversion keeps finite: from [2^128 - 2^103] on
    the runtime returns an infinity. *)
Definition float32_finite (x : R) : Prop :=
  (Rabs x < IZR (2 ^ 128 - 2 ^ 103))%R.

(** The single-precision numbers: [m * 2^e] with a significand of at
    most 24 bits. *)
Definition representable32 (x : R) : Prop :=
  exists m e : Z,
    (Z.abs m < 2 ^ 24)%Z /\ (-149 <= e <= 104)%Z /\
    x = (IZR m * powerRZ 2 e)%R.

(** [t.float()] *)
Definition float (t : Mat) : Mat := map (map float32) t.

(** [t.repeat(n, 1, 1)] of a tensor [(1, P, D)]. *)
Definition repeat_batch (n : nat) (t : T3) : T3 :=
  concat (List.repeat t n).

(** [a + b] on vectors, with broadcasting. *)
Definition add (a b : Vec) : Result Vec :=
  broadcast (fun x y => Ok (x + y)%R) a b.

End Torch.

(* ================================================================== *)
(** * The collaborators                                                *)
(* ================================================================== *)

(** One contrastive head of [bbox_head.head_module.cls_contrasts]: the two
    similarity variants [query_cls_embed] selects from.  The result has
    one row per class and one column per location. *)
Record Contrast (Tensor : Type) : Type := {
  forward_no_normalization : Tensor -> T3 -> Mat;
  forward_flattened : Tensor -> T3 -> Mat
}.
Arguments forward_no_normalization {Tensor} c _ _.
Arguments forward_flattened {Tensor} c _ _.

(** The framework objects a detector holds.  [Tensor] stands for image
    batches, feature maps and dense embedding maps, which the module only
    passes on; text features are [(batch, classes, dim)] tensors.  [neck]
    is [None] when no neck is configured ([with_neck] is false). *)
Class Framework : Type := {
  Tensor : Type;
  Preds : Type;
  shape0 : Tensor -> nat;
  backbone_forward_text : PyVal -> T3;
  backbone_forward_image : Tensor -> list Tensor;
  backbone_forward : Tensor -> PyVal -> list Tensor * T3;
  neck : option (list Tensor -> option T3 -> list Tensor);
  bbox_head_predict :
    nat -> list Tensor -> T3 -> PyVal -> bool -> Preds;
  add_pred_to_datasample : PyVal -> Preds -> PyVal;
  cls_contrasts : list (Contrast Tensor)
}.

(** What the prompt-driven detector reads at construction: the array
    stored in a file ([numpy.load]), the standard normal sampler
    ([torch.randn]) and the initial parameters of [nn.Linear(i, o)]. *)
Class InitEnv : Type := {
  np_load : string -> Mat;
  randn : nat -> nat -> Mat;
  nn_Linear : nat -> nat -> Torch.Linear
}.

(** Calls into the collaborators, in the order they are made. *)
Inductive Call : Type :=
| ForwardText (texts : PyVal)
| ForwardImage
| BackboneJoint (texts : PyVal)
| HeadPredict (num_classes : nat)
| ContrastForward (head : nat) (pre_normalized : bool).

(** The calls that run the text encoder. *)
Definition encodes_text (c : Call) : bool :=
  match c with
  | ForwardText _ | BackboneJoint _ => true
  | _ => false
  end.

(* ================================================================== *)
(** * YOLOWorldDetector                                                *)
(* ================================================================== *)

(** The fields of the detector the module reads and writes.  [texts] and
    [text_feats] are attributes that exist only once assigned;
    [bbox_head_num_classes] is [self.bbox_head.num_classes]; [calls] is
    the record of collaborator calls. *)
Record Detector : Type := {
  mm_neck : bool;
  num_train_classes : nat;
  num_test_classes : nat;
  texts : option PyVal;
  text_feats : option T3;
  bbox_head_num_classes : nat;
  calls : list Call
}.

Definition set_texts (t : PyVal) (s : Detector) : Detector :=
  {| mm_neck := mm_neck s; num_train_classes := num_train_classes s;
     num_test_classes := num_test_classes s;
     texts := Some t; text_feats := text_feats s;
     bbox_head_num_classes := bbox_head_num_classes s; calls := calls s |}.

Definition set_text_feats (f : T3) (s : Detector) : Detector :=
  {| mm_neck := mm_neck s; num_train_classes := num_train_classes s;
     num_test_classes := num_test_classes s;
     texts := texts s; text_feats := Some f;
     bbox_head_num_classes := bbox_head_num_classes s; calls := calls s |}.

Definition set_num_classes (n : nat) (s : Detector) : Detector :=
  {| mm_neck := mm_neck s; num_train_classes := num_train_classes s;
     num_test_classes := num_test_classes s;
     texts := texts s; text_feats := text_feats s;
     bbox_head_num_classes := n; calls := calls s |}.

Definition record_call (c : Call) (s : Detector) : Detector :=
  {| mm_neck := mm_neck s; num_train_classes := num_train_classes s;
     num_test_classes := num_test_classes s;
     texts := texts s; text_feats := text_feats s;
     bbox_head_num_classes := bbox_head_num_classes s;
     calls := calls s ++ [c] |}.

(** Methods run on the detector: they return or raise, and leave the
    detector in a new state either way. *)
Definition M (A : Type) : Type := Detector -> Result A * Detector.

#[global] Instance M_ret : MRet M := fun A a s => (Ok a, s).
#[global] Instance M_bind : MBind M := fun A B f m s =>
  match m s with
  | (Ok a, s') => f a s'
  | (Raise e, s') => (Raise e, s')
  end.

Definition raise {A} (e : Exn) : M A := fun s => (Raise e, s).
Definition lift {A} (r : Result A) : M A := fun s => (r, s).
Definition gets {A} (f : Detector -> A) : M A := fun s => (Ok (f s), s).
Definition modify (f : Detector -> Detector) : M unit :=
  fun s => (Ok tt, f s).
Definition call (c : Call) : M unit := modify (record_call c).

(** [self.name] for an attribute that may not exist yet. *)
Definition self_attr {A} (f : Detector -> option A) : M A := fun s =>
  (match f s with Some a => Ok a | None => Raise AttributeError end, s).

(** [hasattr(self, name)] *)
Definition self_hasattr {A} (f : Detector -> option A) : M bool :=
  gets (fun s => match f s with Some _ => true | None => false end).

(** Arguments of [query_cls_embed]'s [texts]: a list, or a tensor of
    precomputed embeddings [(N, D)]. *)
Inductive QueryTexts : Type :=
| TextList (xs : list PyVal)
| TextTensor (t : Mat).

Section YOLOWorldDetector.
Context `{FW : Framework}.

Definition reparameterize (texts : PyVal) : M unit :=
  modify (set_texts texts);;
  call (ForwardText texts);;
  modify (set_text_feats (backbone_forward_text texts)).

(** The resolution of the texts, lines 79-91 of [extract_feat]: the
    texts and, when the cached embeddings are used, [txt_feats]. *)
Definition text_source (batch_data_samples : PyVal)
  : M (PyVal * option T3) :=
  if Py.is_none batch_data_samples then
    texts ← self_attr texts;
    txt_feats ← self_attr text_feats;
    mret (texts, Some txt_feats)
  else if Py.is_dict_with "texts" batch_data_samples then
    texts ← lift (Py.subscript "texts" batch_data_samples);
    mret (texts, None)
  else
    is_samples ←
      lift (Py.is_list_whose_first_has "texts" batch_data_samples);
    if (is_samples : bool) then
      texts ← lift (Py.gather_attr "texts" batch_data_samples);
      mret (texts, None)
    else
      cached ← self_hasattr text_feats;
      if (cached : bool) then
        texts ← self_attr texts;
        txt_feats ← self_attr text_feats;
        mret (texts, Some txt_feats)
      else raise TypeError.

(** Lines 97-101: the neck, when one is configured. *)
Definition apply_neck (mm_neck : bool) (img_feats : list Tensor)
    (txt_feats : T3) : list Tensor :=
  match neck with
  | Some neck =>
      if mm_neck then neck img_feats (Some txt_feats)
      else neck img_feats None
  | None => img_feats
  end.

Definition extract_feat (batch_inputs : Tensor)
    (batch_data_samples : PyVal) : M (list Tensor * T3) :=
  '(texts, txt_feats) ← text_source batch_data_samples;
  '(img_feats, txt_feats) ←
    match txt_feats with
    | Some txt_feats =>
        call ForwardImage;;
        mret (backbone_forward_image batch_inputs, txt_feats)
    | None =>
        call (BackboneJoint texts);;
        mret (backbone_forward batch_inputs texts)
    end;
  with_mm ← gets mm_neck;
  mret (apply_neck with_mm img_feats txt_feats, txt_feats).

Definition predict (batch_inputs : Tensor) (batch_data_samples : PyVal)
    (rescale : bool) : M PyVal :=
  '(img_feats, txt_feats) ← extract_feat batch_inputs batch_data_samples;
  txt0 ← lift (Py.index0 txt_feats);
  modify (set_num_classes (length txt0));;
  num_classes ← gets bbox_head_num_classes;
  call (HeadPredict num_classes);;
  let results_list :=
    bbox_head_predict num_classes img_feats txt_feats
      batch_data_samples rescale in
  mret (add_pred_to_datasample batch_data_samples results_list).

(** The loop over [cls_contrasts], lines 118-125. *)
Fixpoint contrast_logits (pre_normalized : bool) (cls_embed : Tensor)
    (txt_feats : T3) (i : nat) (heads : list (Contrast Tensor))
  : M (list Mat) :=
  match heads with
  | [] => mret []
  | cls_contrast :: rest =>
      call (ContrastForward i pre_normalized);;
      let cls_logit :=
        if pre_normalized
        then forward_no_normalization cls_contrast cls_embed txt_feats
        else forward_flattened cls_contrast cls_embed txt_feats in
      cls_logits ← contrast_logits pre_normalized cls_embed txt_feats
                     (S i) rest;
      mret (Torch.sigmoid_mat cls_logit :: cls_logits)
  end.

(** The combination of the per-head maps, lines 131-140. *)
Definition combine (cls_logits : list Mat) (scale_logits : option Mat)
  : Result Mat :=
  match scale_logits with
  | Some scale_logits =>
      uncertainty ← Torch.last_channel scale_logits;
      let supvervised_mask := Torch.lt_half uncertainty in
      let scale_logits := Torch.drop_last_channel scale_logits in
      stacked ← Torch.stack cls_logits;
      let C := length (hd [] stacked) in
      let V := length (hd [] (hd [] stacked)) in
      let stacked_cls_logits := Torch.permute_201 V stacked in
      let scale_logits :=
        Torch.masked_normalize supvervised_mask scale_logits in
      weighted ← Torch.mul_weights stacked_cls_logits scale_logits;
      Ok (Torch.permute_10 C (Torch.sum_dim1 C weighted))
  | None =>
      stacked ← Torch.stack cls_logits;
      Ok (Torch.mean_dim0 stacked)
  end.

Definition query_cls_embed (texts : QueryTexts) (cls_embed : Tensor)
    (scale_logits : option Mat)
    (consider_uncertainty pre_normalized : bool)
  : M (Vec * list nat * Mat) :=
  txt_feats ←
    match texts with
    | TextList xs =>
        x0 ← lift (Py.index0 xs);
        (if Py.isinstance_str x0 then mret tt else raise AssertionError);;
        call (ForwardText (PyList [PyList xs]));;
        mret (backbone_forward_text (PyList [PyList xs]))
    | TextTensor t => mret (Torch.reshape_rows t)
    end;
  cls_logits ←
    contrast_logits pre_normalized cls_embed txt_feats 0 cls_contrasts;
  cls_logit ← lift (combine cls_logits scale_logits);
  '(scores, labels) ← lift (Torch.max_dim0 cls_logit);
  mret (scores, labels, cls_logit).

End YOLOWorldDetector.

(* ================================================================== *)
(** * YOLOWorldPromptDetector                                          *)
(* ================================================================== *)

Module Prompt.

(** [nn.Sequential(nn.Linear(d, 2d), nn.ReLU(True), nn.Linear(2d, d))] *)
Record Adapter : Type := {
  fc1 : Torch.Linear;
  fc2 : Torch.Linear
}.

Definition adapter_forward (a : Adapter) (x : Vec) : Result Vec :=
  h ← Torch.linear (fc1 a) x;
  Torch.linear (fc2 a) (Torch.relu h).

Record Detector : Type := {
  mm_neck : bool;
  num_training_classes : nat;
  num_test_classes : nat;
  prompt_dim : nat;
  num_prompts : nat;
  freeze_prompt : bool;
  use_mlp_adapter : bool;
  embeddings : Mat;
  embeddings_requires_grad : bool;
  adapter : option Adapter
}.

(** [__init__], lines 166-195. *)
Definition init `{IE : InitEnv} (mm_neck : bool)
    (num_train_classes num_test_classes prompt_dim num_prompts : nat)
    (embedding_path : string) (freeze_prompt use_mlp_adapter : bool)
  : Detector :=
  let embeddings :=
    if 0 <? String.length embedding_path
    then Torch.float (np_load embedding_path)
    else map Torch.normalize (randn num_prompts prompt_dim) in
  {| mm_neck := mm_neck;
     num_training_classes := num_train_classes;
     num_test_classes := num_test_classes;
     prompt_dim := prompt_dim;
     num_prompts := num_prompts;
     freeze_prompt := freeze_prompt;
     use_mlp_adapter := use_mlp_adapter;
     embeddings := embeddings;
     embeddings_requires_grad := if freeze_prompt then false else true;
     adapter :=
       if use_mlp_adapter
       then Some {| fc1 := nn_Linear prompt_dim (prompt_dim * 2);
                    fc2 := nn_Linear (prompt_dim * 2) prompt_dim |}
       else None |}.

(** [self.adapter(txt_feats) + txt_feats] on one embedding vector. *)
Definition residual (a : Adapter) (e : Vec) : Result Vec :=
  y ← adapter_forward a e;
  Torch.add y e.

Section Methods.
Context `{FW : Framework}.

Definition extract_feat (self : Detector) (batch_inputs : Tensor)
    (batch_data_samples : PyVal) : Result (list Tensor * T3) :=
  let '(img_feats, _) := backbone_forward batch_inputs PyNone in
  let txt_feats : T3 := [embeddings self] in
  txt_feats ←
    match adapter self with
    | Some a =>
        txt_feats ←
          Py.comprehension (Py.comprehension (residual a)) txt_feats;
        Ok (map (map Torch.normalize) txt_feats)
    | None => Ok txt_feats
    end;
  img0 ← Py.index0 img_feats;
  let txt_feats := Torch.repeat_batch (shape0 img0) txt_feats in
  Ok (apply_neck (mm_neck self) img_feats txt_feats, txt_feats).

End Methods.

End Prompt.

(* ================================================================== *)
(** * A small concrete configuration                                   *)
(* ================================================================== *)

(** Two contrastive heads over two classes and a single location, a
    backbone that returns fixed features, no neck.  Image batches are
    represented by their batch size. *)
Module Example.

Definition head_a : Contrast nat :=
  {| forward_no_normalization := fun _ _ => [[0%R]; [1%R]];
     forward_flattened := fun _ _ => [[1%R]; [0%R]] |}.

Definition head_b : Contrast nat :=
  {| forward_no_normalization := fun _ _ => [[2%R]; [0%R]];
     forward_flattened := fun _ _ => [[0%R]; [2%R]] |}.

Definition text_features : T3 := [[[1; 0]; [0; 1]; [1; 1]]]%R.

#[local] Instance framework : Framework :=
  {| Tensor := nat;
     Preds := nat;
     shape0 := fun b => b;
     backbone_forward_text := fun _ => text_features;
     backbone_forward_image := fun b => [b];
     backbone_forward := fun b _ => ([b], text_features);
     neck := None;
     bbox_head_predict := fun n _ _ _ _ => n;
     add_pred_to_datasample :=
       fun samples n => PyTuple [samples; PyNum (Z.of_nat n)];
     cls_contrasts := [head_a; head_b] |}.

#[local] Instance init_env : InitEnv :=
  {| np_load := fun _ => [[0%R]];
     randn := fun n d => List.repeat (List.repeat 1%R d) n;
     nn_Linear := fun i o =>
       {| Torch.weight := List.repeat (List.repeat 0%R i) o;
          Torch.bias := List.repeat 0%R o |} |}.

(** A detector configured for 80 classes, nothing cached. *)
Definition detector : Detector :=
  {| mm_neck := false; num_train_classes := 80; num_test_classes := 80;
     texts := None; text_feats := None;
     bbox_head_num_classes := 80; calls := [] |}.

Definition cached : Detector :=
  set_text_feats text_features (set_texts (PyList [PyList [PyStr "cat"]])
                                          detector).

Definition sample (ts : list string) : PyVal :=
  PyObj {[ "texts" := PyList (map PyStr ts) ]}.

Definition bare_sample : PyVal := PyObj ∅.

(** A prompt-driven detector with one prompt of dimension one, whose
    embedding is the zero vector, and an adapter without bias. *)
Definition zero_prompt : Prompt.Detector :=
  {| Prompt.mm_neck := false;
     Prompt.num_training_classes := 1;
     Prompt.num_test_classes := 1;
     Prompt.prompt_dim := 1;
     Prompt.num_prompts := 1;
     Prompt.freeze_prompt := false;
     Prompt.use_mlp_adapter := true;
     Prompt.embeddings := [[0%R]];
     Prompt.embeddings_requires_grad := true;
     Prompt.adapter :=
       Some {| Prompt.fc1 := {| Torch.weight := [[1]; [1]]%R;
                                Torch.bias := [0; 0]%R |};
               Prompt.fc2 := {| Torch.weight := [[1; 1]]%R;
                                Torch.bias := [0%R] |} |} |}.

End Example.

(* ================================================================== *)
(** * The behaviour the specification describes                        *)
(* ================================================================== *)

(** The cached texts and embeddings, as both [text_source] branches that
    use them read them. *)
Definition cached_source (det : Detector) : Result (PyVal * option T3) :=
  match texts det, text_feats det with
  | Some t, Some f => Ok (t, Some f)
  | _, _ => Raise AttributeError
  end.

(** None of the tests of the first three branches of [text_source]
    holds: the samples are not [None], not a dict with a [texts] key, and
    the test of the list branch evaluates to false. *)
Definition unmatched (samples : PyVal) : Prop :=
  Py.is_none samples = false /\
  Py.is_dict_with "texts" samples = false /\
  Py.is_list_whose_first_has "texts" samples = Ok false.

(** Several calls recorded at once. *)
Definition record_calls (cs : list Call) (s : Detector) : Detector :=
  {| mm_neck := mm_neck s; num_train_classes := num_train_classes s;
     num_test_classes := num_test_classes s;
     texts := texts s; text_feats := text_feats s;
     bbox_head_num_classes := bbox_head_num_classes s;
     calls := calls s ++ cs |}.

Module Spec.

(** "a sequence whose elements expose a [texts] attribute" *)
Definition elements_expose (name : string) (v : PyVal) : bool :=
  match v with
  | PyList xs | PyTuple xs => forallb (Py.hasattr name) xs
  | _ => false
  end.

Definition gather (name : string) (v : PyVal) : Result PyVal :=
  match v with
  | PyList xs | PyTuple xs =>
      ys ← Py.comprehension (Py.getattr name) xs; Ok (PyList ys)
  | _ => Raise TypeError
  end.

(** The four sources in the order the specification gives them:
    (a) no samples: the cached texts and embeddings; (b) a mapping with a
    [texts] key: its texts; (c) a sequence whose elements expose [texts]:
    the texts of the samples; (d) cached embeddings exist: the cache;
    otherwise a type error. *)
Definition text_source (det : Detector) (samples : PyVal)
  : Result (PyVal * option T3) :=
  if Py.is_none samples then cached_source det
  else if Py.is_dict_with "texts" samples then
    t ← Py.subscript "texts" samples; Ok (t, None)
  else if elements_expose "texts" samples then
    ts ← gather "texts" samples; Ok (ts, None)
  else if bool_decide (is_Some (text_feats det)) then cached_source det
  else Raise TypeError.

(** "if [texts] is a list, its elements must be strings" *)
Definition all_strings (xs : list PyVal) : bool :=
  forallb Py.isinstance_str xs.

(** The mixing weights at one location, from the location's row of
    [scale_logits]: the last entry is the uncertainty; below 0.5 the
    other entries are divided by their sum plus epsilon, otherwise they
    are used as they are. *)
Definition weights (row : Vec) : Vec :=
  let w := removelast row in
  if decide (List.last row 0 < 1 / 2)%R
  then map (fun x => x / (Torch.sum w + Torch.eps))%R w
  else w.

(** Entry [(c, v)] of a map of shape (classes, locations). *)
Definition entry (m : Mat) (c v : nat) : R := nth v (nth c m []) 0%R.

(** The weighted sum over the heads at class [c] and location [v]. *)
Definition mix (cls_logits : list Mat) (scale_logits : Mat) (c v : nat)
  : R :=
  Torch.sum (zip_with (fun m w => entry m c v * w)%R cls_logits
                      (weights (nth v scale_logits []))).

(** The mean over the heads at class [c] and location [v]. *)
Definition mean (cls_logits : list Mat) (c v : nat) : R :=
  (Torch.sum (map (fun m => entry m c v) cls_logits)
   / INR (length cls_logits))%R.

(** A linear layer from [i] to [o] features. *)
Definition linear_shape (i o : nat) (l : Torch.Linear) : Prop :=
  length (Torch.weight l) = o /\
  Forall (fun w => length w = i) (Torch.weight l) /\
  length (Torch.bias l) = o.

(** "a two-layer feed-forward adapter (expand-by-2x, nonlinearity,
    project back)" on embeddings of dimension [d]. *)
Definition adapter_shape (d : nat) (a : Prompt.Adapter) : Prop :=
  linear_shape d (d * 2) (Prompt.fc1 a) /\
  linear_shape (d * 2) d (Prompt.fc2 a).

Definition linear_out (l : Torch.Linear) (x : Vec) : Vec :=
  Torch.vadd (map (fun w => Torch.dot x w) (Torch.weight l)) (Torch.bias l).

(** "refine the embeddings via a residual update": the adapter output
    added to the embedding. *)
Definition adapter_update (a : Prompt.Adapter) (e : Vec) : Vec :=
  Torch.vadd
    (linear_out (Prompt.fc2 a)
       (Torch.relu (linear_out (Prompt.fc1 a) e)))
    e.

End Spec.

Section QueryParts.
Context `{FW : Framework}.

(** The sigmoid maps of the heads, in the order of [cls_contrasts]. *)
Definition head_maps (pre_normalized : bool) (cls_embed : Tensor)
    (txt_feats : T3) (heads : list (Contrast Tensor)) : list Mat :=
  map (fun h =>
         Torch.sigmoid_mat
           (if pre_normalized
            then forward_no_normalization h cls_embed txt_feats
            else forward_flattened h cls_embed txt_feats)) heads.

Definition contrast_calls (pre_normalized : bool) (i n : nat) : list Call :=
  map (fun k => ContrastForward k pre_normalized) (seq i n).

(** The texts [query_cls_embed] accepts: a tensor, or a list that starts
    with a string. *)
Definition accepted (texts : QueryTexts) : Prop :=
  match texts with
  | TextList xs => exists x rest, xs = x :: rest /\ Py.isinstance_str x = true
  | TextTensor _ => True
  end.

(** Lines 112-116: the class embeddings of accepted texts. *)
Definition class_embeddings (texts : QueryTexts) : T3 :=
  match texts with
  | TextList xs => backbone_forward_text (PyList [PyList xs])
  | TextTensor t => Torch.reshape_rows t
  end.

(** The collaborator calls of a query with accepted texts. *)
Definition query_calls (texts : QueryTexts) (pre_normalized : bool)
  : list Call :=
  match texts with
  | TextList xs => [ForwardText (PyList [PyList xs])]
  | TextTensor _ => []
  end ++ contrast_calls pre_normalized 0 (length cls_contrasts).

(** Lines 131-145 on the collected maps. *)
Definition scores_of (cls_logits : list Mat) (scale_logits : option Mat)
  : Result (Vec * list nat * Mat) :=
  cls_logit ← combine cls_logits scale_logits;
  '(scores, labels) ← Torch.max_dim0 cls_logit;
  Ok (scores, labels, cls_logit).

End QueryParts.

(* ================================================================== *)
(** * The remaining methods of the detectors                           *)
(* ================================================================== *)

(** The head's [loss] and [forward] routines.  Like [bbox_head_predict]
    they are given the head's current [num_classes].  Their calls are not
    among the recorded [Call]s, which follow the backbone, the text
    encoder, the head's [predict] and the contrastive heads. *)
Class HeadRoutines `{FW : Framework} : Type := {
  Losses : Type;
  Outputs : Type;
  bbox_head_loss : nat -> list Tensor -> T3 -> PyVal -> Losses;
  bbox_head_forward : nat -> list Tensor -> T3 -> Outputs
}.

(** [YOLOWorldDetector.__init__], lines 22-25: the three configured
    fields; [texts] and [text_feats] are not assigned.  The head's
    initial [num_classes] comes from the head's own configuration. *)
Definition init (mm_neck : bool) (num_train_classes num_test_classes : nat)
    (head_num_classes : nat) : Detector :=
  {| mm_neck := mm_neck;
     num_train_classes := num_train_classes;
     num_test_classes := num_test_classes;
     texts := None;
     text_feats := None;
     bbox_head_num_classes := head_num_classes;
     calls := [] |}.

(** What no method but [reparameterize] changes: the configured fields
    and the cached texts and embeddings. *)
Definition keeps_settings (before after : Detector) : Prop :=
  mm_neck after = mm_neck before /\
  num_train_classes after = num_train_classes before /\
  num_test_classes after = num_test_classes before /\
  texts after = texts before /\
  text_feats after = text_feats before.

Section RemainingMethods.
Context `{HR : HeadRoutines}.

(** [YOLOWorldDetector.loss], lines 30-34. *)
Definition loss (batch_inputs : Tensor) (batch_data_samples : PyVal)
  : M Losses :=
  num_train_classes ← gets num_train_classes;
  modify (set_num_classes num_train_classes);;
  '(img_feats, txt_feats) ← extract_feat batch_inputs batch_data_samples;
  num_classes ← gets bbox_head_num_classes;
  mret (bbox_head_loss num_classes img_feats txt_feats batch_data_samples).

(** [YOLOWorldDetector._forward], lines 70-73. *)
Definition _forward (batch_inputs : Tensor) (batch_data_samples : PyVal)
  : M Outputs :=
  '(img_feats, txt_feats) ← extract_feat batch_inputs batch_data_samples;
  num_classes ← gets bbox_head_num_classes;
  mret (bbox_head_forward num_classes img_feats txt_feats).

End RemainingMethods.

(** The entry points of [YOLOWorldPromptDetector].  The only state they
    change is the head's [num_classes]: it is passed in and returned
    beside the result. *)
Module PromptMethods.
Section Methods.
Context `{HR : HeadRoutines}.

(** [YOLOWorldPromptDetector.loss], lines 200-204. *)
Definition loss (self : Prompt.Detector) (batch_inputs : Tensor)
    (batch_data_samples : PyVal) (head_num_classes : nat)
  : Result Losses * nat :=
  let head_num_classes := Prompt.num_training_classes self in
  match Prompt.extract_feat self batch_inputs batch_data_samples with
  | Ok (img_feats, txt_feats) =>
      (Ok (bbox_head_loss head_num_classes img_feats txt_feats
             batch_data_samples),
       head_num_classes)
  | Raise e => (Raise e, head_num_classes)
  end.

(** [YOLOWorldPromptDetector.predict], lines 214-225. *)
Definition predict (self : Prompt.Detector) (batch_inputs : Tensor)
    (batch_data_samples : PyVal) (rescale : bool) (head_num_classes : nat)
  : Result PyVal * nat :=
  match Prompt.extract_feat self batch_inputs batch_data_samples with
  | Ok (img_feats, txt_feats) =>
      let head_num_classes := Prompt.num_test_classes self in
      let results_list :=
        bbox_head_predict head_num_classes img_feats txt_feats
          batch_data_samples rescale in
      (Ok (add_pred_to_datasample batch_data_samples results_list),
       head_num_classes)
  | Raise e => (Raise e, head_num_classes)
  end.

(** [YOLOWorldPromptDetector._forward], lines 234-237. *)
Definition _forward (self : Prompt.Detector) (batch_inputs : Tensor)
    (batch_data_samples : PyVal) (head_num_classes : nat)
  : Result Outputs * nat :=
  match Prompt.extract_feat self batch_inputs batch_data_samples with
  | Ok (img_feats, txt_feats) =>
      (Ok (bbox_head_forward head_num_classes img_feats txt_feats),
       head_num_classes)
  | Raise e => (Raise e, head_num_classes)
  end.

End Methods.
End PromptMethods.

(** Embedding files: one that holds single-precision values, and one
    that holds the 64-bit integer [2^24 + 1]. *)
Module ExampleFiles.

#[local] Instance single_precision_file : InitEnv :=
  {| np_load := fun _ => [[1 / 2; -3]]%R;
     randn := fun n d => List.repeat (List.repeat 1%R d) n;
     nn_Linear := fun i o =>
       {| Torch.weight := List.repeat (List.repeat 0%R i) o;
          Torch.bias := List.repeat 0%R o |} |}.

#[local] Instance integer_file : InitEnv :=
  {| np_load := fun _ => [[16777217%R]];
     randn := fun n d => List.repeat (List.repeat 1%R d) n;
     nn_Linear := fun i o =>
       {| Torch.weight := List.repeat (List.repeat 0%R i) o;
          Torch.bias := List.repeat 0%R o |} |}.

End ExampleFiles.

(** Further concrete configurations. *)
Module Example2.

#[local] Instance head_routines : HeadRoutines (FW := Example.framework) :=
  {| Losses := nat;
     Outputs := nat;
     bbox_head_loss := fun n _ _ _ => n;
     bbox_head_forward := fun n _ _ => n |}.

(** A backbone that returns no feature map and an empty text batch. *)
#[local] Instance empty_backbone : Framework :=
  {| Tensor := nat;
     Preds := nat;
     shape0 := fun b => b;
     backbone_forward_text := fun _ => [];
     backbone_forward_image := fun _ => [];
     backbone_forward := fun _ _ => ([], []);
     neck := None;
     bbox_head_predict := fun n _ _ _ _ => n;
     add_pred_to_datasample := fun samples _ => samples;
     cls_contrasts := [] |}.

(** Three heads of one class at one location. *)
Definition head_c : Contrast nat :=
  {| forward_no_normalization := fun _ _ => [[0%R]];
     forward_flattened := fun _ _ => [[0%R]] |}.

#[local] Instance three_heads : Framework :=
  {| Tensor := nat;
     Preds := nat;
     shape0 := fun b => b;
     backbone_forward_text := fun _ => Example.text_features;
     backbone_forward_image := fun b => [b];
     backbone_forward := fun b _ => ([b], Example.text_features);
     neck := None;
     bbox_head_predict := fun n _ _ _ _ => n;
     add_pred_to_datasample := fun samples _ => samples;
     cls_contrasts := [head_c; head_c; head_c] |}.

(** A prompt-driven detector without adapter: two prompts of dimension
    two, five test classes configured. *)
Definition plain_prompt : Prompt.Detector :=
  {| Prompt.mm_neck := false;
     Prompt.num_training_classes := 7;
     Prompt.num_test_classes := 5;
     Prompt.prompt_dim := 2;
     Prompt.num_prompts := 2;
     Prompt.freeze_prompt := true;
     Prompt.use_mlp_adapter := false;
     Prompt.embeddings := [[3; 4]; [0; 2]]%R;
     Prompt.embeddings_requires_grad := false;
     Prompt.adapter := None |}.

(** The embedding table of [plain_prompt] under the adapter of
    [Example.zero_prompt], which expects dimension one. *)
Definition wide_prompt : Prompt.Detector :=
  {| Prompt.mm_neck := false;
     Prompt.num_training_classes := 7;
     Prompt.num_test_classes := 5;
     Prompt.prompt_dim := 1;
     Prompt.num_prompts := 2;
     Prompt.freeze_prompt := false;
     Prompt.use_mlp_adapter := true;
     Prompt.embeddings := [[3; 4]; [0; 2]]%R;
     Prompt.embeddings_requires_grad := true;
     Prompt.adapter := Prompt.adapter Example.zero_prompt |}.

(** A prompt-driven detector with the adapter of [Example.zero_prompt]:
    two prompts of dimension one, five test classes configured. *)
Definition adapted_prompt : Prompt.Detector :=
  {| Prompt.mm_neck := false;
     Prompt.num_training_classes := 7;
     Prompt.num_test_classes := 5;
     Prompt.prompt_dim := 1;
     Prompt.num_prompts := 2;
     Prompt.freeze_prompt := false;
     Prompt.use_mlp_adapter := true;
     Prompt.embeddings := [[1]; [2]]%R;
     Prompt.embeddings_requires_grad := true;
     Prompt.adapter := Prompt.adapter Example.zero_prompt |}.

End Example2.

(* ================================================================== *)
(** * Properties of the text-driven detector                           *)
(* ================================================================== *)

Lemma record_calls_nil (det : Detector) : record_calls [] det = det.
Proof. destruct det; unfold record_calls; simpl. by rewrite app_nil_r. Qed.

Lemma record_call_calls (c : Call) (det : Detector) :
  record_call c det = record_calls [c] det.
Proof. reflexivity. Qed.

Lemma record_calls_app (cs ds : list Call) (det : Detector) :
  record_calls ds (record_calls cs det) = record_calls (cs ++ ds) det.
Proof. unfold record_calls; simpl. by rewrite app_assoc. Qed.

Lemma comprehension_getattr_exn (name : string) (xs : list PyVal) (e : Exn) :
  Py.comprehension (Py.getattr name) xs = Raise e -> e = AttributeError.
Proof.
  induction xs as [|x xs IH]; simpl; [discriminate|].
  destruct (Py.getattr name x) as [y|e'] eqn:Hx; simpl.
  - destruct (Py.comprehension (Py.getattr name) xs) as [ys|e'']; simpl;
      [discriminate|].
    intros [= <-]. by apply IH.
  - intros [= <-]. destruct x; simpl in Hx; try congruence.
    destruct (attrs !! name); congruence.
Qed.

Lemma cached_source_not_TypeError (det : Detector) :
  cached_source det <> Raise TypeError.
Proof.
  unfold cached_source.
  destruct (texts det), (text_feats det); discriminate.
Qed.

(** Runs the steps of a method on a given detector state. *)
Ltac run_method :=
  cbv [mbind M_bind mret M_ret call modify gets lift raise
       self_attr self_hasattr Py.index0];
  cbn [fst snd calls record_call set_num_classes set_texts set_text_feats
       bbox_head_num_classes num_test_classes mm_neck texts text_feats].

Section DetectorProperties.
Context `{FW : Framework}.

(** ** The resolution of the texts *)

Lemma text_source_none (det : Detector) :
  text_source PyNone det = (cached_source det, det).
Proof.
  unfold text_source, cached_source; simpl.
  unfold mbind, M_bind, self_attr.
  destruct (texts det), (text_feats det); reflexivity.
Qed.

Lemma text_source_mapping (det : Detector) (kvs : gmap string PyVal)
    (t : PyVal) :
  kvs !! "texts" = Some t ->
  text_source (PyDict kvs) det = (Ok (t, None), det).
Proof.
  intros Ht. unfold text_source; simpl.
  rewrite bool_decide_eq_true_2; [|by rewrite Ht].
  unfold mbind, M_bind, lift; simpl. by rewrite Ht.
Qed.

Lemma text_source_samples (det : Detector) (x : PyVal) (xs : list PyVal) :
  Py.hasattr "texts" x = true ->
  text_source (PyList (x :: xs)) det =
    (ts ← Py.comprehension (Py.getattr "texts") (x :: xs);
     Ok (PyList ts, None), det).
Proof.
  intros Hx. unfold text_source.
  cbn [Py.is_none Py.is_dict_with].
  unfold mbind at 1. unfold M_bind, lift.
  cbn [Py.is_list_whose_first_has Py.index0 mbind Result_bind].
  rewrite Hx. unfold mbind at 1. unfold Py.gather_attr.
  destruct (Py.comprehension (Py.getattr "texts") (x :: xs)); reflexivity.
Qed.

Lemma text_source_unmatched (det : Detector) (samples : PyVal) :
  unmatched samples ->
  text_source samples det =
    (match text_feats det with
     | Some _ => cached_source det
     | None => Raise TypeError
     end, det).
Proof.
  intros (Hn & Hd & Hl). unfold text_source. rewrite Hn, Hd.
  unfold mbind at 1. unfold M_bind, lift. rewrite Hl.
  unfold mbind at 1. unfold M_bind, self_hasattr, gets, cached_source.
  unfold mbind, M_bind, self_attr, raise.
  destruct (text_feats det) eqn:Hf, (texts det) eqn:Ht;
    cbv beta iota; rewrite ?Hf, ?Ht; reflexivity.
Qed.

Lemma unmatched_cases (samples : PyVal) :
  unmatched samples <->
  samples <> PyNone /\
  (forall kvs, samples = PyDict kvs -> kvs !! "texts" = None) /\
  samples <> PyList [] /\
  (forall x xs, samples = PyList (x :: xs) -> Py.hasattr "texts" x = false).
Proof.
  unfold unmatched. split.
  - intros (Hn & Hd & Hl). repeat split.
    + intros ->. discriminate.
    + intros kvs ->. simpl in Hd.
      apply bool_decide_eq_false in Hd.
      destruct (kvs !! "texts") eqn:E; [|done]. exfalso. apply Hd. eauto.
    + intros ->. discriminate.
    + intros x xs ->. simpl in Hl. congruence.
  - intros (Hn & Hd & He & Hl). destruct samples as [| | |xs| | |];
      try (repeat split; reflexivity); try congruence.
    + destruct xs as [|x xs]; [congruence|].
      repeat split; try reflexivity. simpl. by rewrite (Hl x xs).
    + repeat split; try reflexivity. simpl.
      rewrite (Hd kvs eq_refl). apply bool_decide_eq_false.
      intros [? ?]; discriminate.
Qed.

(** ** From the source of the texts to the features *)

Lemma extract_feat_cached (det : Detector) (batch_inputs : Tensor)
    (samples t : PyVal) (f : T3) :
  text_source samples det = (Ok (t, Some f), det) ->
  extract_feat batch_inputs samples det =
    (Ok (apply_neck (mm_neck det) (backbone_forward_image batch_inputs) f,
         f),
     record_call ForwardImage det).
Proof.
  intros H. unfold extract_feat. unfold mbind at 1. unfold M_bind.
  rewrite H. reflexivity.
Qed.

Lemma extract_feat_joint (det : Detector) (batch_inputs : Tensor)
    (samples t : PyVal) :
  text_source samples det = (Ok (t, None), det) ->
  extract_feat batch_inputs samples det =
    (Ok (apply_neck (mm_neck det) (backbone_forward batch_inputs t).1
                    (backbone_forward batch_inputs t).2,
         (backbone_forward batch_inputs t).2),
     record_call (BackboneJoint t) det).
Proof.
  intros H. unfold extract_feat. unfold mbind at 1. unfold M_bind.
  rewrite H. cbv beta iota. unfold mbind at 1. unfold M_bind.
  cbn [call modify mbind M_bind mret M_ret].
  destruct (backbone_forward batch_inputs t) as [img txt]. reflexivity.
Qed.

Lemma extract_feat_raise (det : Detector) (batch_inputs : Tensor)
    (samples : PyVal) (e : Exn) :
  text_source samples det = (Raise e, det) ->
  extract_feat batch_inputs samples det = (Raise e, det).
Proof.
  intros H. unfold extract_feat. unfold mbind at 1. unfold M_bind.
  by rewrite H.
Qed.

(** Lines 92-102 on a resolved source: the image branch alone with
    cached embeddings, the joint call on the texts otherwise. *)
Lemma extract_feat_of_source (det : Detector) (batch_inputs : Tensor)
    (samples : PyVal) (r : Result (PyVal * option T3)) :
  text_source samples det = (r, det) ->
  extract_feat batch_inputs samples det =
    match r with
    | Ok (_, Some f) =>
        (Ok (apply_neck (mm_neck det)
               (backbone_forward_image batch_inputs) f, f),
         record_call ForwardImage det)
    | Ok (t, None) =>
        (Ok (apply_neck (mm_neck det) (backbone_forward batch_inputs t).1
               (backbone_forward batch_inputs t).2,
             (backbone_forward batch_inputs t).2),
         record_call (BackboneJoint t) det)
    | Raise e => (Raise e, det)
    end.
Proof.
  intros H. destruct r as [[t [f|]]|e].
  - by apply (extract_feat_cached _ _ _ t).
  - by apply extract_feat_joint.
  - by apply extract_feat_raise.
Qed.

(** C3 (amended).  For samples other than the empty list, the texts are
    resolved by the tests in this order: (a) [None]: the cached texts
    and embeddings; (b) a dict with a [texts] key: its texts, embeddings
    to be recomputed, whether or not embeddings are cached; (c) a
    non-empty list whose first element has a [texts] attribute: the
    [texts] of every element, embeddings to be recomputed, and
    [AttributeError] when a later element has none; (d) anything else
    with cached embeddings: the cache.  [TypeError] is raised exactly
    when none of the three tests holds and no embeddings are cached.
    Features are then extracted from that source: with the cache, by
    the image branch alone; with texts, by the joint backbone call. *)
Theorem text_source_priority (det : Detector) (batch_inputs : Tensor)
    (samples : PyVal) :
  samples <> PyList [] ->
  exists r,
    text_source samples det = (r, det) /\
    extract_feat batch_inputs samples det =
      match r with
      | Ok (_, Some f) =>
          (Ok (apply_neck (mm_neck det)
                 (backbone_forward_image batch_inputs) f, f),
           record_call ForwardImage det)
      | Ok (t, None) =>
          (Ok (apply_neck (mm_neck det)
                 (backbone_forward batch_inputs t).1
                 (backbone_forward batch_inputs t).2,
               (backbone_forward batch_inputs t).2),
           record_call (BackboneJoint t) det)
      | Raise e => (Raise e, det)
      end /\
    (samples = PyNone -> r = cached_source det) /\
    (forall kvs t, samples = PyDict kvs -> kvs !! "texts" = Some t ->
       r = Ok (t, None)) /\
    (forall x xs, samples = PyList (x :: xs) ->
       Py.hasattr "texts" x = true ->
       r = (ts ← Py.comprehension (Py.getattr "texts") (x :: xs);
            Ok (PyList ts, None))) /\
    (unmatched samples -> is_Some (text_feats det) ->
       r = cached_source det) /\
    (r = Raise TypeError <-> unmatched samples /\ text_feats det = None).
Proof.
  intros Hne.
  cut (exists r,
    text_source samples det = (r, det) /\
    (samples = PyNone -> r = cached_source det) /\
    (forall kvs t, samples = PyDict kvs -> kvs !! "texts" = Some t ->
       r = Ok (t, None)) /\
    (forall x xs, samples = PyList (x :: xs) ->
       Py.hasattr "texts" x = true ->
       r = (ts ← Py.comprehension (Py.getattr "texts") (x :: xs);
            Ok (PyList ts, None))) /\
    (unmatched samples -> is_Some (text_feats det) ->
       r = cached_source det) /\
    (r = Raise TypeError <-> unmatched samples /\ text_feats det = None)).
  { intros (r & Hr & H). exists r. split; [exact Hr|].
    split; [by apply extract_feat_of_source|exact H]. }
  assert (Hrest : unmatched samples ->
    exists r, text_source samples det = (r, det) /\
    (samples = PyNone -> r = cached_source det) /\
    (forall kvs t, samples = PyDict kvs -> kvs !! "texts" = Some t ->
       r = Ok (t, None)) /\
    (forall x xs, samples = PyList (x :: xs) ->
       Py.hasattr "texts" x = true ->
       r = (ts ← Py.comprehension (Py.getattr "texts") (x :: xs);
            Ok (PyList ts, None))) /\
    (unmatched samples -> is_Some (text_feats det) ->
       r = cached_source det) /\
    (r = Raise TypeError <-> unmatched samples /\ text_feats det = None)).
  { intros Hu. eexists. split; [by apply text_source_unmatched|].
    pose proof Hu as Hu'.
    apply unmatched_cases in Hu' as (Hn & Hk & _ & Hl).
    split_and!.
    - intros ->. congruence.
    - intros kvs t -> Ht. rewrite (Hk kvs eq_refl) in Ht. discriminate.
    - intros x xs -> Hx. rewrite (Hl x xs eq_refl) in Hx. discriminate.
    - intros _ [f Hf]. by rewrite Hf.
    - destruct (text_feats det) eqn:Hf.
      + split; [|by intros [_ [=]]].
        intros H. by apply cached_source_not_TypeError in H.
      + split; auto. }
  assert (Hnot : forall r : Result (PyVal * option T3),
    ~ unmatched samples -> r <> Raise TypeError ->
    (unmatched samples -> is_Some (text_feats det) ->
       r = cached_source det) /\
    (r = Raise TypeError <-> unmatched samples /\ text_feats det = None)).
  { intros r Hnu Hr. split; [by intros Hu|]. split; [done|by intros [Hu _]]. }
  destruct samples as [| | |xs| |kvs|].
  - exists (cached_source det). split; [apply text_source_none|].
    split_and!; try congruence; apply Hnot.
    all: try (intros (Hn & _); discriminate).
    all: apply cached_source_not_TypeError.
  - apply Hrest, unmatched_cases. split_and!; intros; congruence.
  - apply Hrest, unmatched_cases. split_and!; intros; congruence.
  - destruct xs as [|x xs]; [congruence|].
    destruct (Py.hasattr "texts" x) eqn:Hx.
    + eexists. split; [by apply text_source_samples|].
      assert (Hnu : ~ unmatched (PyList (x :: xs))).
      { intros (_ & _ & Hl). simpl in Hl. congruence. }
      assert (Hr : (ts ← Py.comprehension (Py.getattr "texts") (x :: xs);
                    Ok (PyList ts, None)) <> (Raise TypeError
                      : Result (PyVal * option T3))).
      { destruct (Py.comprehension (Py.getattr "texts") (x :: xs)) eqn:E;
          [discriminate|].
        apply comprehension_getattr_exn in E. simpl. congruence. }
      split_and!; try congruence; by apply Hnot.
    + apply Hrest, unmatched_cases. split_and!; intros; congruence.
  - apply Hrest, unmatched_cases. split_and!; intros; congruence.
  - destruct (kvs !! "texts") as [t|] eqn:Ht.
    + exists (Ok (t, None)). split; [by apply text_source_mapping|].
      assert (Hnu : ~ unmatched (PyDict kvs)).
      { intros (_ & Hd & _). simpl in Hd.
        apply bool_decide_eq_false in Hd. apply Hd. rewrite Ht. eauto. }
      split_and!; try congruence; by apply Hnot.
    + apply Hrest, unmatched_cases. split_and!; intros; congruence.
  - apply Hrest, unmatched_cases. split_and!; intros; congruence.
Qed.

(** ** Cached features and prediction *)

Lemma reparameterize_state (det : Detector) (ts : PyVal) :
  reparameterize ts det =
    (Ok tt,
     set_text_feats (backbone_forward_text ts)
       (record_call (ForwardText ts) (set_texts ts det))).
Proof. reflexivity. Qed.

(** C5.  Where [extract_feat] uses the cached text embeddings (no
    samples, or samples that match none of the three tests while
    embeddings are cached) the only backbone call is [forward_image];
    where the texts come from the samples (a dict with [texts], or a
    list of samples that all carry [texts]) the only backbone call is
    the joint call on the inputs and those texts.  After
    [reparameterize texts], [predict] without samples takes the cached
    features of [texts] and adds no call that runs the text encoder. *)
Theorem extract_feat_cached_runs_image_branch_only
    (det : Detector) (batch_inputs : Tensor) :
  (forall samples t f,
     samples = PyNone \/ unmatched samples ->
     texts det = Some t -> text_feats det = Some f ->
     extract_feat batch_inputs samples det =
       (Ok (apply_neck (mm_neck det)
              (backbone_forward_image batch_inputs) f, f),
        record_call ForwardImage det)) /\
  (forall kvs t,
     kvs !! "texts" = Some t ->
     extract_feat batch_inputs (PyDict kvs) det =
       (Ok (apply_neck (mm_neck det) (backbone_forward batch_inputs t).1
              (backbone_forward batch_inputs t).2,
            (backbone_forward batch_inputs t).2),
        record_call (BackboneJoint t) det)) /\
  (forall x xs ts,
     Py.hasattr "texts" x = true ->
     Py.comprehension (Py.getattr "texts") (x :: xs) = Ok ts ->
     extract_feat batch_inputs (PyList (x :: xs)) det =
       (Ok (apply_neck (mm_neck det)
              (backbone_forward batch_inputs (PyList ts)).1
              (backbone_forward batch_inputs (PyList ts)).2,
            (backbone_forward batch_inputs (PyList ts)).2),
        record_call (BackboneJoint (PyList ts)) det)) /\
  (forall ts rescale,
     let det1 := (reparameterize ts det).2 in
     let out := predict batch_inputs PyNone rescale det1 in
     calls det1 = calls det ++ [ForwardText ts] /\
     (extract_feat batch_inputs PyNone det1).1 =
       Ok (apply_neck (mm_neck det)
             (backbone_forward_image batch_inputs)
             (backbone_forward_text ts),
           backbone_forward_text ts) /\
     filter encodes_text (calls out.2) = filter encodes_text (calls det1)).
Proof.
  split_and!.
  - intros samples t f Hs Ht Hf. apply (extract_feat_cached _ _ _ t).
    destruct Hs as [->|Hu].
    + rewrite text_source_none. unfold cached_source. by rewrite Ht, Hf.
    + rewrite (text_source_unmatched _ _ Hu). unfold cached_source.
      by rewrite Ht, Hf.
  - intros kvs t Ht. apply extract_feat_joint.
    by apply text_source_mapping.
  - intros x xs ts Hx Hts. apply extract_feat_joint.
    rewrite (text_source_samples _ _ _ Hx). by rewrite Hts.
  - intros ts rescale det1 out. subst out det1.
    rewrite reparameterize_state. cbn [snd].
    set (det1 := set_text_feats _ _).
    assert (Hsrc : text_source PyNone det1 =
              (Ok (ts, Some (backbone_forward_text ts)), det1)).
    { by rewrite text_source_none. }
    pose proof (extract_feat_cached det1 batch_inputs _ _ _ Hsrc) as He.
    split_and!; [reflexivity|by rewrite He|].
    unfold predict. unfold mbind at 1. unfold M_bind. rewrite He.
    cbv beta iota. unfold mbind at 1. unfold M_bind, lift.
    destruct (backbone_forward_text ts) as [|txt0 rest]; run_method.
    + rewrite filter_app. cbn. by rewrite app_nil_r.
    + rewrite !filter_app. cbn. by rewrite !app_nil_r.
Qed.

(** C4.  After feature extraction [predict] sets the head's
    [num_classes] to the class dimension of the returned text features,
    whatever [num_test_classes] is configured, then calls the head's
    [predict] with that count and returns the samples with the results
    attached. *)
Theorem predict_sets_num_classes_from_text_features
    (det det' : Detector) (batch_inputs : Tensor) (samples : PyVal)
    (rescale : bool) (img_feats : list Tensor) (txt0 : Mat) (txt : T3) :
  extract_feat batch_inputs samples det =
    (Ok (img_feats, txt0 :: txt), det') ->
  let out := predict batch_inputs samples rescale det in
  out.1 =
    Ok (add_pred_to_datasample samples
          (bbox_head_predict (length txt0) img_feats (txt0 :: txt)
             samples rescale)) /\
  bbox_head_num_classes out.2 = length txt0 /\
  calls out.2 = calls det' ++ [HeadPredict (length txt0)] /\
  num_test_classes out.2 = num_test_classes det'.
Proof.
  intros He out. subst out. unfold predict.
  run_method. rewrite He. run_method. done.
Qed.

(** C10.  [extract_feat] called with an empty list raises [IndexError],
    from the subscript [batch_data_samples[0]] in the test of the list
    branch.  This holds for every detector state, with or without cached
    text embeddings: neither the cached fallback nor the [TypeError]
    branch is reached, the detector is left as it was and no collaborator
    is called. *)
Theorem extract_feat_empty_list_raises_IndexError
    (det : Detector) (batch_inputs : Tensor) :
  extract_feat batch_inputs (PyList []) det = (Raise IndexError, det).
Proof.
  apply extract_feat_raise. unfold text_source.
  cbn [Py.is_none Py.is_dict_with]. reflexivity.
Qed.

End DetectorProperties.

(** A list whose first sample carries texts and whose second does not:
    the specification's order gives the cached embeddings (not every
    element exposes [texts], and embeddings are cached); the code enters
    the list branch on the first element and raises [AttributeError]. *)
Lemma text_source_mixed_list_differs :
  let samples := PyList [Example.sample ["cat"]; Example.bare_sample] in
  Spec.text_source Example.cached samples = cached_source Example.cached /\
  text_source samples Example.cached =
    (Raise AttributeError, Example.cached) /\
  extract_feat (FW := Example.framework) 1 samples Example.cached =
    (Raise AttributeError, Example.cached) /\
  (text_source samples Example.cached).1 <>
    Spec.text_source Example.cached samples.
Proof.
  assert (H1 : Spec.text_source Example.cached
                 (PyList [Example.sample ["cat"]; Example.bare_sample]) =
               cached_source Example.cached) by reflexivity.
  assert (H2 : text_source
                 (PyList [Example.sample ["cat"]; Example.bare_sample])
                 Example.cached =
               (Raise AttributeError, Example.cached)) by reflexivity.
  cbv zeta. split_and!; [exact H1|exact H2|reflexivity|].
  rewrite H1, H2. discriminate.
Qed.

Lemma text_source_priority_witness :
  exists r,
    text_source (PyDict {[ "texts" := PyList [PyStr "cat"] ]})
      Example.cached = (r, Example.cached) /\
    r = Ok (PyList [PyStr "cat"], None).
Proof.
  destruct (text_source_priority (FW := Example.framework) Example.cached
              1 (PyDict {[ "texts" := PyList [PyStr "cat"] ]}))
    as (r & Hr & _ & _ & Hb & _); [discriminate|].
  exists r. split; [exact Hr|]. by apply (Hb _ _ eq_refl).
Defined.

(* ================================================================== *)
(** * Properties of the class-embedding query                          *)
(* ================================================================== *)

(** ** Which exceptions the tensor operations raise *)

Lemma comprehension_raises {A B} (P : Exn -> Prop) (f : A -> Result B)
    (xs : list A) (e : Exn) :
  (forall x e', f x = Raise e' -> P e') ->
  Py.comprehension f xs = Raise e -> P e.
Proof.
  intros Hf. induction xs as [|x xs IH]; simpl; [discriminate|].
  destruct (f x) as [y|e'] eqn:Hx; simpl.
  - destruct (Py.comprehension f xs); simpl; [discriminate|].
    intros [= <-]. by apply IH.
  - intros [= <-]. by apply (Hf x).
Qed.

Lemma broadcast_raises {A B C} (P : Exn -> Prop) (f : A -> B -> Result C)
    (xs : list A) (ys : list B) (e : Exn) :
  P RuntimeError ->
  (forall x y e', f x y = Raise e' -> P e') ->
  Torch.broadcast f xs ys = Raise e -> P e.
Proof.
  intros HR Hf. unfold Torch.broadcast.
  destruct (length xs =? length ys).
  - apply comprehension_raises. intros [x y]. apply Hf.
  - destruct xs as [|x [|x' xs]], ys as [|y [|y' ys]];
      try (intros [= <-]; exact HR);
      try (apply comprehension_raises; intros ?; apply Hf).
Qed.

Lemma combine_raises (cls_logits : list Mat) (scale_logits : option Mat)
    (e : Exn) :
  combine cls_logits scale_logits = Raise e ->
  e = IndexError \/ e = RuntimeError.
Proof.
  unfold combine.
  assert (Hstack : forall e', Torch.stack cls_logits = Raise e' ->
            e' = RuntimeError).
  { unfold Torch.stack. destruct cls_logits; [congruence|].
    destruct (forallb _ _); congruence. }
  destruct scale_logits as [scale|].
  - destruct (Torch.last_channel scale) as [u|e'] eqn:Hu; simpl.
    + destruct (Torch.stack cls_logits) as [st|e'] eqn:Hst; simpl.
      * destruct (Torch.mul_weights _ _) as [w|e'] eqn:Hw; simpl;
          [discriminate|].
        intros [= <-]. right. revert Hw.
        apply (broadcast_raises (fun e => e = RuntimeError)); [done|].
        intros x y e''.
        apply (broadcast_raises (fun e => e = RuntimeError)); [done|].
        discriminate.
      * intros [= <-]. right. by apply Hstack.
    + intros [= <-]. left. revert Hu.
      apply (comprehension_raises (fun e => e = IndexError)).
      intros [|? ?]; congruence.
  - destruct (Torch.stack cls_logits) as [st|e'] eqn:Hst; simpl;
      [discriminate|].
    intros [= <-]. right. by apply Hstack.
Qed.

Section QueryProperties.
Context `{FW : Framework}.

Lemma scores_of_raises (cls_logits : list Mat) (scale_logits : option Mat)
    (e : Exn) :
  scores_of cls_logits scale_logits = Raise e ->
  e = IndexError \/ e = RuntimeError.
Proof.
  unfold scores_of.
  destruct (combine cls_logits scale_logits) as [m|e'] eqn:Hc; simpl.
  - destruct m as [|r0 rest]; simpl; [intros [= <-]; by left|discriminate].
  - intros [= <-]. by apply combine_raises in Hc.
Qed.

Lemma contrast_logits_run (pre_normalized : bool) (cls_embed : Tensor)
    (txt_feats : T3) (heads : list (Contrast Tensor)) (i : nat)
    (det : Detector) :
  contrast_logits pre_normalized cls_embed txt_feats i heads det =
    (Ok (head_maps pre_normalized cls_embed txt_feats heads),
     record_calls (contrast_calls pre_normalized i (length heads)) det).
Proof.
  revert i det. induction heads as [|h heads IH]; intros i det.
  - simpl. by rewrite record_calls_nil.
  - cbn [contrast_logits]. run_method. rewrite IH.
    rewrite record_call_calls, record_calls_app. reflexivity.
Qed.

Lemma query_cls_embed_accepted (det : Detector) (texts : QueryTexts)
    (cls_embed : Tensor) (scale_logits : option Mat)
    (consider_uncertainty pre_normalized : bool) :
  accepted texts ->
  query_cls_embed texts cls_embed scale_logits consider_uncertainty
      pre_normalized det =
    (scores_of
       (head_maps pre_normalized cls_embed (class_embeddings texts)
          cls_contrasts) scale_logits,
     record_calls (query_calls texts pre_normalized) det).
Proof.
  intros Hacc. unfold query_cls_embed, query_calls, scores_of.
  destruct texts as [xs|t].
  - destruct Hacc as (x & rest & -> & Hx). run_method. rewrite Hx.
    rewrite contrast_logits_run.
    rewrite record_call_calls, record_calls_app.
    cbn [class_embeddings app].
    destruct (combine _ _) as [m|e]; [|reflexivity].
    cbv [Result_bind]. destruct (Torch.max_dim0 m) as [[s l]|e]; reflexivity.
  - run_method. rewrite contrast_logits_run. cbn [class_embeddings app].
    destruct (combine _ _) as [m|e]; [|reflexivity].
    cbv [Result_bind]. destruct (Torch.max_dim0 m) as [[s l]|e]; reflexivity.
Qed.

Lemma query_cls_embed_rejected (det : Detector) (x : PyVal)
    (xs : list PyVal) (cls_embed : Tensor) (scale_logits : option Mat)
    (consider_uncertainty pre_normalized : bool) :
  Py.isinstance_str x = false ->
  query_cls_embed (TextList (x :: xs)) cls_embed scale_logits
      consider_uncertainty pre_normalized det =
    (Raise AssertionError, det).
Proof. intros Hx. unfold query_cls_embed. run_method. by rewrite Hx. Qed.

(** C8 (amended).  When [texts] is a non-empty list, the assertion
    looks at its first element only.  If that element is not a string
    the query raises [AssertionError] and leaves the detector as it was:
    no text is encoded and no head is evaluated.  If it is a string the
    assertion passes whatever the other elements are: the list is handed
    to the text encoder, every head is evaluated, and the query does not
    raise [AssertionError]. *)
Theorem query_cls_embed_asserts_first_text_is_str (det : Detector)
    (x : PyVal) (xs : list PyVal) (cls_embed : Tensor)
    (scale_logits : option Mat)
    (consider_uncertainty pre_normalized : bool) :
  let out := query_cls_embed (TextList (x :: xs)) cls_embed scale_logits
               consider_uncertainty pre_normalized det in
  (Py.isinstance_str x = false -> out = (Raise AssertionError, det)) /\
  (Py.isinstance_str x = true ->
     out.1 <> Raise AssertionError /\
     calls out.2 =
       calls det ++
       ForwardText (PyList [PyList (x :: xs)])
       :: contrast_calls pre_normalized 0 (length cls_contrasts)).
Proof.
  intros out. subst out. split.
  - apply query_cls_embed_rejected.
  - intros Hx. rewrite query_cls_embed_accepted by (simpl; eauto).
    split; [|reflexivity]. cbn [fst]. intros H.
    apply scores_of_raises in H as [H|H]; discriminate.
Qed.

(** C6.  The [consider_uncertainty] flag has no effect: two queries that
    differ in the flag only return the same scores, labels and logit
    map and leave the detector in the same state.  With [scale_logits]
    supplied and accepted texts, the result under either value of the
    flag is the combination of lines 131-145 on the sigmoid maps of the
    heads and the supplied weights. *)
Theorem consider_uncertainty_has_no_effect (det : Detector)
    (texts : QueryTexts) (cls_embed : Tensor) (scale_logits : option Mat)
    (pre_normalized : bool) :
  query_cls_embed texts cls_embed scale_logits true pre_normalized det =
  query_cls_embed texts cls_embed scale_logits false pre_normalized det /\
  forall (consider_uncertainty : bool) (weights : Mat),
    accepted texts ->
    query_cls_embed texts cls_embed (Some weights) consider_uncertainty
        pre_normalized det =
      (scores_of
         (head_maps pre_normalized cls_embed (class_embeddings texts)
            cls_contrasts) (Some weights),
       record_calls (query_calls texts pre_normalized) det).
Proof.
  split; [reflexivity|]. intros flag weights Hacc.
  by apply query_cls_embed_accepted.
Qed.

End QueryProperties.

(** A list whose first element is a string and whose second is a number
    violates "every element is a string", yet the assertion passes: the
    list goes to the text encoder and both heads are evaluated. *)
Lemma query_cls_embed_unchecked_tail :
  let texts := [PyStr "cat"; PyNum 3] in
  let out := query_cls_embed (FW := Example.framework) (TextList texts)
               1 None false true Example.detector in
  Spec.all_strings texts = false /\
  out.1 <> Raise AssertionError /\
  calls out.2 = [ForwardText (PyList [PyList texts]);
                 ContrastForward 0 true; ContrastForward 1 true].
Proof.
  cbv zeta. rewrite query_cls_embed_accepted by (simpl; eauto).
  split_and!; [reflexivity| |reflexivity].
  cbn [fst]. intros H. apply scores_of_raises in H as [H|H]; discriminate.
Qed.

Lemma query_cls_embed_asserts_first_text_is_str_witness :
  query_cls_embed (FW := Example.framework)
    (TextList [PyNum 3; PyStr "cat"]) 1 None false true Example.detector =
  (Raise AssertionError, Example.detector).
Proof.
  apply (query_cls_embed_asserts_first_text_is_str
           (FW := Example.framework) Example.detector (PyNum 3)
           [PyStr "cat"] 1 None false true).
  reflexivity.
Defined.

Lemma consider_uncertainty_has_no_effect_witness :
  query_cls_embed (FW := Example.framework) (TextTensor [[1; 0]]%R) 1
    (Some [[1; 3; 0]]%R) true true Example.detector =
  query_cls_embed (FW := Example.framework) (TextTensor [[1; 0]]%R) 1
    (Some [[1; 3; 0]]%R) false true Example.detector.
Proof.
  exact (proj1 (consider_uncertainty_has_no_effect
                  (FW := Example.framework) Example.detector
                  (TextTensor [[1; 0]]%R) 1 (Some [[1; 3; 0]]%R) true)).
Defined.

(* ================================================================== *)
(** * The combination of the per-head maps                             *)
(* ================================================================== *)

(** ** Lists as tensors *)

Lemma has_shape_spec (C V : nat) (m : Mat) :
  Torch.has_shape C V m = true <->
  length m = C /\ Forall (fun r => length r = V) m.
Proof.
  unfold Torch.has_shape. rewrite andb_true_iff, Nat.eqb_eq.
  rewrite forallb_forall, Forall_forall.
  split; intros [H1 H2]; split; auto; intros r Hr.
  - apply Nat.eqb_eq, H2. by apply list_elem_of_In.
  - apply Nat.eqb_eq, H2. by apply list_elem_of_In.
Qed.

Lemma nth_zip_with {A B C} (f : A -> B -> C) (a : list A) (b : list B)
    (i : nat) (da : A) (db : B) (d : C) :
  i < length a -> i < length b ->
  nth i (zip_with f a b) d = f (nth i a da) (nth i b db).
Proof.
  revert b i. induction a as [|x a IH]; intros [|y b] [|i]; simpl;
    try lia; [reflexivity|].
  intros Ha Hb. apply IH; lia.
Qed.

Lemma length_zip_with_same {A B C} (f : A -> B -> C) (a : list A)
    (b : list B) :
  length a = length b -> length (zip_with f a b) = length a.
Proof.
  revert b. induction a as [|x a IH]; intros [|y b]; simpl; try lia.
  intros H. f_equal. apply IH. lia.
Qed.

Lemma nth_map_in {A B} (f : A -> B) (l : list A) (i : nat) (d : A) (e : B) :
  i < length l -> nth i (map f l) e = f (nth i l d).
Proof.
  revert i. induction l as [|x l IH]; intros [|i]; simpl; try lia;
    [reflexivity|].
  intros H. apply IH. lia.
Qed.

Lemma nth_seq_map {B} (f : nat -> B) (n i : nat) (e : B) :
  i < n -> nth i (map f (seq 0 n)) e = f i.
Proof.
  intros H. rewrite (nth_map_in f _ i 0) by (by rewrite length_seq).
  by rewrite seq_nth.
Qed.

Lemma entry_column (m : Mat) (c v : nat) :
  c < length m -> nth c (Torch.column v m) 0%R = Spec.entry m c v.
Proof. intros H. unfold Torch.column. by rewrite (nth_map_in _ _ _ []). Qed.

Lemma comprehension_ok {A B} (f : A -> Result B) (g : A -> B)
    (xs : list A) :
  Forall (fun x => f x = Ok (g x)) xs ->
  Py.comprehension f xs = Ok (map g xs).
Proof.
  induction 1 as [|x xs Hx _ IH]; simpl; [reflexivity|].
  by rewrite Hx, IH.
Qed.

Lemma broadcast_same_length {A B C} (f : A -> B -> Result C)
    (g : A -> B -> C) (xs : list A) (ys : list B) :
  length xs = length ys ->
  Forall (fun p => f p.1 p.2 = Ok (g p.1 p.2)) (zip xs ys) ->
  Torch.broadcast f xs ys = Ok (zip_with g xs ys).
Proof.
  intros Hlen Hf. unfold Torch.broadcast.
  rewrite (proj2 (Nat.eqb_eq _ _) Hlen).
  rewrite (comprehension_ok _ (fun p => g p.1 p.2)) by exact Hf.
  f_equal. clear. revert ys.
  induction xs as [|x xs IH]; intros [|y ys]; simpl; try reflexivity.
  f_equal. apply IH.
Qed.

Lemma length_removelast {A} (l : list A) :
  length (removelast l) = pred (length l).
Proof.
  induction l as [|x [|y l] IH]; simpl in *; try reflexivity.
  by rewrite IH.
Qed.

(** ** Sums *)

Lemma sum_map_scale (k : R) (v : Vec) :
  Torch.sum (map (fun x => x * k)%R v) = (Torch.sum v * k)%R.
Proof. induction v as [|x v IH]; simpl; [lra|]. rewrite IH. lra. Qed.

Lemma sum_rows_length (C : nat) (rows : Mat) :
  Forall (fun r => length r = C) rows ->
  length (Torch.sum_rows C rows) = C.
Proof.
  induction 1 as [|r rows Hr _ IH]; simpl; [apply repeat_length|].
  unfold Torch.vadd. rewrite length_zip_with_same; lia.
Qed.

Lemma sum_rows_nth (C : nat) (rows : Mat) (c : nat) :
  c < C -> Forall (fun r => length r = C) rows ->
  nth c (Torch.sum_rows C rows) 0%R =
  Torch.sum (map (fun r => nth c r 0%R) rows).
Proof.
  intros Hc. induction 1 as [|r rows Hr Hrows IH]; simpl.
  - by rewrite nth_repeat.
  - unfold Torch.vadd at 1.
    rewrite (nth_zip_with _ _ _ _ 0%R 0%R); [by rewrite IH|lia|].
    rewrite sum_rows_length; [lia|done].
Qed.

Lemma Forall_zip_both {A B} (P : A -> Prop) (Q : B -> Prop) (xs : list A)
    (ys : list B) :
  Forall P xs -> Forall Q ys ->
  Forall (fun p => P p.1 /\ Q p.2) (zip xs ys).
Proof.
  intros Hx. revert ys. induction Hx as [|x xs Hx _ IH];
    intros ys Hy; [constructor|].
  destruct Hy as [|y ys Hy Hys]; simpl; constructor; auto.
Qed.

(** ** The mixing weights *)

Lemma last_channel_ok (scale : Mat) :
  Forall (fun r => r <> []) scale ->
  Torch.last_channel scale = Ok (map (fun r => List.last r 0%R) scale).
Proof.
  intros H. unfold Torch.last_channel. apply comprehension_ok.
  eapply Forall_impl; [exact H|]. intros [|x r] Hr; [done|reflexivity].
Qed.

Lemma masked_normalize_weights (scale : Mat) :
  Torch.masked_normalize
    (Torch.lt_half (map (fun r => List.last r 0%R) scale))
    (Torch.drop_last_channel scale) =
  map Spec.weights scale.
Proof.
  unfold Torch.masked_normalize, Torch.lt_half, Torch.drop_last_channel.
  induction scale as [|r scale IH]; simpl; [reflexivity|].
  rewrite IH. f_equal. unfold Spec.weights, Torch.normalize_row.
  unfold bool_decide. destruct (decide_rel Rlt _ _), (decide _);
    try reflexivity; contradiction.
Qed.

(** In a supervised row the weights are the other channels divided by
    their sum plus epsilon, so they sum to [s / (s + eps)]; in an
    uncertain row they are the other channels themselves. *)
Lemma weights_supervised (row : Vec) :
  (List.last row 0 < 1 / 2)%R ->
  Spec.weights row =
    map (fun x => x / (Torch.sum (removelast row) + Torch.eps))%R
        (removelast row) /\
  Torch.sum (Spec.weights row) =
    (Torch.sum (removelast row)
     / (Torch.sum (removelast row) + Torch.eps))%R.
Proof.
  intros H. unfold Spec.weights. destruct (decide _); [|contradiction].
  split; [reflexivity|]. unfold Rdiv. apply sum_map_scale.
Qed.

Lemma weights_uncertain (row : Vec) :
  (1 / 2 <= List.last row 0)%R -> Spec.weights row = removelast row.
Proof.
  intros H. unfold Spec.weights. destruct (decide _); [lra|reflexivity].
Qed.

Lemma eps_pos : (0 < Torch.eps)%R.
Proof. unfold Torch.eps. apply Rinv_0_lt_compat. apply pow_lt. lra. Qed.

(** ** The weighted sum over the heads *)

Lemma stack_ok (C V : nat) (ts : list Mat) :
  ts <> [] -> Forall (fun m => Torch.has_shape C V m = true) ts ->
  Torch.stack ts = Ok ts /\
  length (hd [] ts) = C /\
  (0 < C -> length (hd [] (hd [] ts)) = V).
Proof.
  intros Hne Hts. destruct ts as [|m ts]; [done|].
  pose proof (Forall_inv Hts) as Hm. apply has_shape_spec in Hm as [HC HV].
  assert (HV' : 0 < C -> length (hd [] m) = V).
  { intros HC0. destruct m as [|r m]; simpl in *; [lia|].
    by apply Forall_inv in HV. }
  split_and!; [|exact HC|exact HV'].
  unfold Torch.stack. rewrite (proj2 (forallb_forall _ _)); [done|].
  intros m' Hm'. rewrite Forall_forall in Hts.
  apply list_elem_of_In, Hts, has_shape_spec in Hm' as [HC' HV'm].
  apply has_shape_spec. split; [lia|].
  destruct (Nat.eq_dec C 0) as [->|HC0].
  - destruct m'; [constructor|simpl in HC'; lia].
  - rewrite HV' by lia. exact HV'm.
Qed.

Lemma mul_weights_ok (C V : nat) (st : list Mat) (W : Mat) :
  Forall (fun m => Torch.has_shape C V m = true) st ->
  length W = V -> Forall (fun w => length w = length st) W ->
  Torch.mul_weights (Torch.permute_201 V st) W =
    Ok (zip_with (zip_with (fun row w => map (fun x => x * w)%R row))
          (Torch.permute_201 V st) W).
Proof.
  intros Hst HW HWr. unfold Torch.mul_weights.
  apply broadcast_same_length.
  - unfold Torch.permute_201. by rewrite length_map, length_seq.
  - assert (Hp : Forall (fun rows : Mat => length rows = length st)
                   (Torch.permute_201 V st)).
    { unfold Torch.permute_201. apply Forall_forall. intros rows Hin.
      apply list_elem_of_In, in_map_iff in Hin as (v & <- & _).
      by rewrite length_map. }
    eapply Forall_impl; [exact (Forall_zip_both _ _ _ _ Hp HWr)|].
    intros [rows w] [Hr Hw]; simpl in *.
    apply broadcast_same_length; [lia|].
    apply Forall_forall. intros; reflexivity.
Qed.

Lemma sum_weighted_column (C V : nat) (st : list Mat) (w : Vec) (c v : nat) :
  c < C -> Forall (fun m => Torch.has_shape C V m = true) st ->
  Torch.sum
    (map (fun r => nth c r 0%R)
       (zip_with (fun row k => map (fun x => x * k)%R row)
          (map (Torch.column v) st) w)) =
  Torch.sum (zip_with (fun m k => Spec.entry m c v * k)%R st w).
Proof.
  intros Hc Hst. revert w.
  induction Hst as [|m st Hm _ IH]; intros [|k w]; simpl; try reflexivity.
  apply has_shape_spec in Hm as [HC _].
  rewrite IH. f_equal.
  rewrite (nth_map_in _ _ _ 0%R) by (unfold Torch.column;
    rewrite length_map; lia).
  by rewrite entry_column by lia.
Qed.

Lemma weighted_rows_length (C V : nat) (st : list Mat) (w : Vec) (v : nat) :
  Forall (fun m => Torch.has_shape C V m = true) st ->
  Forall (fun r : Vec => length r = C)
    (zip_with (fun row k => map (fun x => x * k)%R row)
       (map (Torch.column v) st) w).
Proof.
  intros Hst. revert w.
  induction Hst as [|m st Hm _ IH]; intros [|k w]; simpl; constructor.
  - apply has_shape_spec in Hm as [HC _].
    unfold Torch.column. by rewrite !length_map.
  - apply IH.
Qed.

Lemma combine_weighted (C V : nat) (maps : list Mat) (scale : Mat) :
  0 < C -> maps <> [] ->
  Forall (fun m => Torch.has_shape C V m = true) maps ->
  Torch.has_shape V (S (length maps)) scale = true ->
  exists out,
    combine maps (Some scale) = Ok out /\
    Torch.has_shape C V out = true /\
    forall c v, c < C -> v < V ->
      Spec.entry out c v = Spec.mix maps scale c v.
Proof.
  intros HC Hne Hmaps Hscale.
  apply has_shape_spec in Hscale as [HV Hrows].
  destruct (stack_ok C V maps Hne Hmaps) as (Hst & HC' & HV').
  specialize (HV' HC).
  unfold combine. rewrite last_channel_ok; cycle 1.
  { eapply Forall_impl; [exact Hrows|]. intros [|? ?]; simpl; [lia|done]. }
  cbn [mbind Result_bind]. rewrite Hst. cbn [mbind Result_bind].
  rewrite HC', HV', masked_normalize_weights.
  assert (HW : Forall (fun w => length w = length maps)
                 (map Spec.weights scale)).
  { apply Forall_forall. intros w Hin.
    apply list_elem_of_In, in_map_iff in Hin as (r & <- & Hr).
    rewrite Forall_forall in Hrows.
    apply list_elem_of_In, Hrows in Hr.
    unfold Spec.weights. destruct (decide _);
      rewrite ?length_map, length_removelast; lia. }
  rewrite (mul_weights_ok C V) by (rewrite ?length_map; done).
  cbn [mbind Result_bind]. eexists. split; [reflexivity|].
  set (X := Torch.sum_dim1 C _).
  assert (HX : length X = V).
  { unfold X, Torch.sum_dim1. rewrite length_map, length_zip_with_same;
      unfold Torch.permute_201; rewrite !length_map, ?length_seq; lia. }
  split.
  - apply has_shape_spec. unfold Torch.permute_10.
    rewrite length_map, length_seq. split; [done|].
    apply Forall_forall. intros r Hin.
    apply list_elem_of_In, in_map_iff in Hin as (j & <- & _).
    unfold Torch.column. by rewrite length_map.
  - intros c v Hc Hv. unfold Spec.entry, Torch.permute_10.
    rewrite nth_seq_map by done.
    unfold Torch.column. rewrite (nth_map_in _ _ _ []) by lia.
    unfold X, Torch.sum_dim1. rewrite (nth_map_in _ _ _ []); cycle 1.
    { rewrite length_zip_with_same;
        unfold Torch.permute_201; rewrite !length_map, ?length_seq; lia. }
    rewrite (nth_zip_with _ _ _ _ [] []); cycle 1.
    { unfold Torch.permute_201. rewrite length_map, length_seq. lia. }
    { rewrite length_map. lia. }
    unfold Torch.permute_201 at 1. rewrite nth_seq_map by done.
    rewrite (nth_map_in _ _ _ []) by lia.
    rewrite sum_rows_nth; [|done|by apply (weighted_rows_length C V)].
    unfold Spec.mix. by apply (sum_weighted_column C V).
Qed.

(** ** The mean over the heads *)

Lemma madd_shape (C V : nat) (a b : Mat) :
  Torch.has_shape C V a = true -> Torch.has_shape C V b = true ->
  Torch.has_shape C V (Torch.madd a b) = true.
Proof.
  rewrite !has_shape_spec. intros [Ha Hra] [Hb Hrb]. unfold Torch.madd.
  split; [rewrite length_zip_with_same; lia|].
  clear Ha Hb. revert b Hrb.
  induction Hra as [|r a Hr _ IH]; intros b Hrb;
    destruct Hrb as [|r' b Hr' Hrb]; simpl; constructor.
  - unfold Torch.vadd. rewrite length_zip_with_same; lia.
  - by apply IH.
Qed.

Lemma madd_entry (C V : nat) (a b : Mat) (c v : nat) :
  Torch.has_shape C V a = true -> Torch.has_shape C V b = true ->
  c < C -> v < V ->
  Spec.entry (Torch.madd a b) c v =
  (Spec.entry a c v + Spec.entry b c v)%R.
Proof.
  rewrite !has_shape_spec. intros [Ha Hra] [Hb Hrb] Hc Hv.
  unfold Spec.entry, Torch.madd.
  rewrite (nth_zip_with _ _ _ _ [] []) by lia.
  assert (Hla : length (nth c a []) = V).
  { rewrite Forall_forall in Hra. apply Hra, list_elem_of_In, nth_In. lia. }
  assert (Hlb : length (nth c b []) = V).
  { rewrite Forall_forall in Hrb. apply Hrb, list_elem_of_In, nth_In. lia. }
  unfold Torch.vadd. by rewrite (nth_zip_with _ _ _ _ 0%R 0%R) by lia.
Qed.

Lemma fold_madd (C V : nat) (ms : list Mat) (m : Mat) :
  Torch.has_shape C V m = true ->
  Forall (fun m => Torch.has_shape C V m = true) ms ->
  Torch.has_shape C V (fold_left Torch.madd ms m) = true /\
  forall c v, c < C -> v < V ->
    Spec.entry (fold_left Torch.madd ms m) c v =
    (Spec.entry m c v + Torch.sum (map (fun m => Spec.entry m c v) ms))%R.
Proof.
  intros Hm Hms. revert m Hm.
  induction Hms as [|m' ms Hm' _ IH]; intros m Hm; simpl.
  - split; [done|]. intros; lra.
  - destruct (IH (Torch.madd m m') (madd_shape _ _ _ _ Hm Hm'))
      as [Hsh Hent].
    split; [done|]. intros c v Hc Hv.
    rewrite Hent, (madd_entry C V) by done. lra.
Qed.

Lemma combine_mean (C V : nat) (maps : list Mat) :
  maps <> [] ->
  Forall (fun m => Torch.has_shape C V m = true) maps ->
  exists out,
    combine maps None = Ok out /\
    Torch.has_shape C V out = true /\
    forall c v, c < C -> v < V ->
      Spec.entry out c v = Spec.mean maps c v.
Proof.
  intros Hne Hmaps.
  destruct (stack_ok C V maps Hne Hmaps) as (Hst & _ & _).
  unfold combine. rewrite Hst. cbn [mbind Result_bind].
  eexists. split; [reflexivity|].
  destruct maps as [|m ms]; [done|]. unfold Torch.mean_dim0.
  destruct (fold_madd C V ms m (Forall_inv Hmaps) (Forall_inv_tail Hmaps))
    as [Hsh Hent].
  set (S := fold_left Torch.madd ms m) in *.
  apply has_shape_spec in Hsh as [HC HV]. split.
  - apply has_shape_spec. rewrite length_map. split; [done|].
    apply Forall_forall. intros r Hin.
    apply list_elem_of_In, in_map_iff in Hin as (r' & <- & Hr').
    rewrite length_map. rewrite Forall_forall in HV.
    by apply HV, list_elem_of_In.
  - intros c v Hc Hv.
    transitivity (Spec.entry S c v / INR (length (m :: ms)))%R;
      [|by rewrite (Hent c v Hc Hv)].
    unfold Spec.entry. rewrite (nth_map_in _ _ _ []) by lia.
    rewrite (nth_map_in _ _ _ 0%R); [reflexivity|].
    rewrite Forall_forall in HV. rewrite (HV (nth c S [])); [lia|].
    apply list_elem_of_In, nth_In. lia.
Qed.

(** ** The maximum over the classes *)

Lemma max_from_spec (xs pre : Vec) (best : R) (besti : nat) :
  besti < length pre -> nth besti pre 0%R = best ->
  (forall c, c < length pre -> (nth c pre 0 <= best)%R) ->
  (forall c, c < besti -> (nth c pre 0 < best)%R) ->
  let r := Torch.max_from best besti (length pre) xs in
  r.2 < length (pre ++ xs) /\
  nth r.2 (pre ++ xs) 0%R = r.1 /\
  (forall c, c < length (pre ++ xs) -> (nth c (pre ++ xs) 0 <= r.1)%R) /\
  (forall c, c < r.2 -> (nth c (pre ++ xs) 0 < r.1)%R).
Proof.
  revert pre best besti.
  induction xs as [|x xs IH]; intros pre best besti Hi Hb Hle Hlt; simpl.
  - rewrite app_nil_r. auto.
  - assert (Hpre : pre ++ x :: xs = (pre ++ [x]) ++ xs)
      by (by rewrite <- app_assoc).
    assert (Hlen : S (length pre) = length (pre ++ [x]))
      by (rewrite length_app; simpl; lia).
    rewrite Hpre, Hlen. destruct (decide (best < x)%R) as [Hx|Hx].
    + apply IH.
      * rewrite length_app; simpl; lia.
      * rewrite app_nth2, Nat.sub_diag by lia. reflexivity.
      * intros c Hc. rewrite length_app in Hc; simpl in Hc.
        destruct (decide (c < length pre)) as [Hc'|Hc'].
        -- rewrite app_nth1 by done. specialize (Hle c Hc'). lra.
        -- replace c with (length pre) by lia.
           rewrite app_nth2, Nat.sub_diag by lia. simpl. lra.
      * intros c Hc. rewrite app_nth1 by done. specialize (Hle c Hc). lra.
    + apply IH.
      * rewrite length_app; simpl; lia.
      * rewrite app_nth1 by done. exact Hb.
      * intros c Hc. rewrite length_app in Hc; simpl in Hc.
        destruct (decide (c < length pre)) as [Hc'|Hc'].
        -- rewrite app_nth1 by done. by apply Hle.
        -- replace c with (length pre) by lia.
           rewrite app_nth2, Nat.sub_diag by lia. simpl. lra.
      * intros c Hc. rewrite app_nth1 by lia. by apply Hlt.
Qed.

(** [torch.max] over the class dimension of a map with at least one
    class: the score of a location is the entry at its label, no entry
    at the location is larger, and the entries of the classes before the
    label are smaller. *)
Lemma max_dim0_spec (C V : nat) (m : Mat) :
  0 < C -> Torch.has_shape C V m = true ->
  exists scores labels,
    Torch.max_dim0 m = Ok (scores, labels) /\
    length scores = V /\ length labels = V /\
    forall v, v < V ->
      nth v labels 0 < C /\
      nth v scores 0%R = Spec.entry m (nth v labels 0) v /\
      (forall c, c < C -> (Spec.entry m c v <= nth v scores 0)%R) /\
      (forall c, c < nth v labels 0 ->
         (Spec.entry m c v < nth v scores 0)%R).
Proof.
  intros HC Hm. apply has_shape_spec in Hm as [Hlen Hrows].
  destruct m as [|r0 rest]; [simpl in Hlen; lia|].
  pose proof (Forall_inv Hrows) as Hr0. simpl in Hr0.
  unfold Torch.max_dim0. eexists _, _. split; [reflexivity|].
  rewrite !length_map, length_seq, Hr0. split_and!; try reflexivity.
  intros v Hv.
  rewrite (nth_map_in _ _ _ (0%R, 0)), (nth_map_in _ _ _ (0%R, 0))
    by (rewrite length_map, length_seq; lia).
  rewrite nth_seq_map by done.
  pose proof (max_from_spec (Torch.column v rest) [nth v r0 0%R]
                (nth v r0 0%R) 0) as Hmax.
  change ([nth v r0 0%R] ++ Torch.column v rest)
    with (Torch.column v (r0 :: rest)) in Hmax.
  change (length [nth v r0 0%R]) with 1 in Hmax.
  assert (HlenC : length (Torch.column v (r0 :: rest)) = C).
  { unfold Torch.column. by rewrite length_map. }
  rewrite HlenC in Hmax.
  destruct Hmax as (H1 & H2 & H3 & H4); [lia|reflexivity| | |].
  { intros [|c] Hc; [simpl; lra|lia]. }
  { intros c Hc; lia. }
  set (r := Torch.max_from _ _ _ _) in *.
  split_and!.
  - exact H1.
  - rewrite <- entry_column by lia. by rewrite H2.
  - intros c Hc. rewrite <- entry_column by lia. by apply H3.
  - intros c Hc. rewrite <- entry_column by lia. by apply H4.
Qed.

(** Three classes at two locations: the scores are the column maxima,
    the labels the first class that attains them. *)
Lemma max_dim0_example :
  Torch.max_dim0 [[1; 5]; [3; 5]; [3; 2]]%R = Ok ([3; 5]%R, [1; 0]).
Proof.
  unfold Torch.max_dim0. cbn [map seq length nth Torch.column Torch.max_from].
  repeat (destruct (decide _); try lra). reflexivity.
Qed.

Lemma stack_shape_mismatch_example :
  Torch.stack [[[1]]; [[1; 2]]]%R = Raise RuntimeError.
Proof. reflexivity. Qed.

Section CombinationProperties.
Context `{FW : Framework}.

Lemma scores_of_ok (C V : nat) (maps : list Mat) (scale : option Mat)
    (out : Mat) :
  0 < C -> combine maps scale = Ok out ->
  Torch.has_shape C V out = true ->
  exists scores labels,
    scores_of maps scale = Ok (scores, labels, out) /\
    length scores = V /\ length labels = V /\
    forall v, v < V ->
      nth v labels 0 < C /\
      nth v scores 0%R = Spec.entry out (nth v labels 0) v /\
      (forall c, c < C -> (Spec.entry out c v <= nth v scores 0)%R) /\
      (forall c, c < nth v labels 0 ->
         (Spec.entry out c v < nth v scores 0)%R).
Proof.
  intros HC Hout Hsh.
  destruct (max_dim0_spec C V out HC Hsh) as (scores & labels & Hmax & H).
  exists scores, labels. split; [|exact H].
  unfold scores_of. rewrite Hout. cbn [mbind Result_bind].
  by rewrite Hmax.
Qed.

(** C1.  With [scale_logits] supplied, for per-head maps of shape
    (classes, locations) and one row of [scale_logits] per location
    holding one weight per head and the uncertainty last, the query
    returns a logit map whose entry at class [c] and location [v] is the
    sum over the heads of the head's sigmoid map at [(c, v)] times the
    head's weight at [v].  The weights at [v] are the row without its
    last channel, divided by their sum plus [1e-12] where the last
    channel is below 0.5 (so that they sum to [s / (s + 1e-12)]), and
    taken as they are where it is at least 0.5. *)
Theorem query_cls_embed_weighted_combination (det : Detector)
    (texts : QueryTexts) (cls_embed : Tensor) (scale_logits : Mat)
    (consider_uncertainty pre_normalized : bool) (C V : nat) :
  let maps := head_maps pre_normalized cls_embed (class_embeddings texts)
                cls_contrasts in
  accepted texts -> 0 < C -> cls_contrasts <> [] ->
  Forall (fun m => Torch.has_shape C V m = true) maps ->
  Torch.has_shape V (S (length cls_contrasts)) scale_logits = true ->
  exists scores labels cls_logit,
    (query_cls_embed texts cls_embed (Some scale_logits)
       consider_uncertainty pre_normalized det).1 =
      Ok (scores, labels, cls_logit) /\
    Torch.has_shape C V cls_logit = true /\
    (forall c v, c < C -> v < V ->
       Spec.entry cls_logit c v =
       Torch.sum
         (zip_with (fun m w => Spec.entry m c v * w)%R maps
            (Spec.weights (nth v scale_logits [])))) /\
    (forall v, v < V ->
       let row := nth v scale_logits [] in
       let w := removelast row in
       ((List.last row 0 < 1 / 2)%R ->
          Spec.weights row =
            map (fun x => x / (Torch.sum w + Torch.eps))%R w /\
          Torch.sum (Spec.weights row) =
            (Torch.sum w / (Torch.sum w + Torch.eps))%R) /\
       ((1 / 2 <= List.last row 0)%R -> Spec.weights row = w)).
Proof.
  intros maps Hacc HC Hheads Hmaps Hscale.
  assert (Hne : maps <> []).
  { unfold maps, head_maps. destruct cls_contrasts; [done|discriminate]. }
  assert (Hlen : length maps = length cls_contrasts).
  { unfold maps, head_maps. by rewrite length_map. }
  rewrite <- Hlen in Hscale.
  destruct (combine_weighted C V maps scale_logits HC Hne Hmaps Hscale)
    as (out & Hout & Hsh & Hent).
  destruct (scores_of_ok C V maps _ out HC Hout Hsh)
    as (scores & labels & Hs & _).
  exists scores, labels, out.
  rewrite query_cls_embed_accepted by done. split_and!; try done.
  intros v Hv row w. split.
  - apply weights_supervised.
  - apply weights_uncertain.
Qed.

(** C2.  Without [scale_logits], for per-head maps of shape (classes,
    locations), the query returns as logit map the element-wise mean of
    the sigmoid maps of all the heads of [cls_contrasts]; the score of a
    location is the largest entry of the map at that location and its
    label the (first) class that attains it. *)
Theorem query_cls_embed_mean_of_heads (det : Detector)
    (texts : QueryTexts) (cls_embed : Tensor)
    (consider_uncertainty pre_normalized : bool) (C V : nat) :
  let maps := head_maps pre_normalized cls_embed (class_embeddings texts)
                cls_contrasts in
  accepted texts -> 0 < C -> cls_contrasts <> [] ->
  Forall (fun m => Torch.has_shape C V m = true) maps ->
  exists scores labels cls_logit,
    (query_cls_embed texts cls_embed None consider_uncertainty
       pre_normalized det).1 = Ok (scores, labels, cls_logit) /\
    Torch.has_shape C V cls_logit = true /\
    length scores = V /\ length labels = V /\
    (forall c v, c < C -> v < V ->
       Spec.entry cls_logit c v =
       (Torch.sum (map (fun m => Spec.entry m c v) maps)
        / INR (length cls_contrasts))%R) /\
    (forall v, v < V ->
       nth v labels 0 < C /\
       nth v scores 0%R = Spec.entry cls_logit (nth v labels 0) v /\
       (forall c, c < C -> (Spec.entry cls_logit c v <= nth v scores 0)%R) /\
       (forall c, c < nth v labels 0 ->
          (Spec.entry cls_logit c v < nth v scores 0)%R)).
Proof.
  intros maps Hacc HC Hheads Hmaps.
  assert (Hne : maps <> []).
  { unfold maps, head_maps. destruct cls_contrasts; [done|discriminate]. }
  assert (Hlen : length maps = length cls_contrasts).
  { unfold maps, head_maps. by rewrite length_map. }
  destruct (combine_mean C V maps Hne Hmaps) as (out & Hout & Hsh & Hent).
  destruct (scores_of_ok C V maps _ out HC Hout Hsh)
    as (scores & labels & Hs & Hls & Hll & Hmax).
  exists scores, labels, out.
  rewrite query_cls_embed_accepted by done. split_and!; try done.
  intros c v Hc Hv. rewrite (Hent c v Hc Hv). unfold Spec.mean.
  by rewrite Hlen.
Qed.

End CombinationProperties.

(** Two heads, two classes, one location, weights 1 and 3.  With the
    uncertainty below 0.5 the weights are divided by [4 + 1e-12]; with
    the uncertainty at 0.5 or above they are used as they are. *)
Lemma combine_supervised_example (a b c d u : R) :
  (u < 1 / 2)%R ->
  exists out,
    combine [[[a]; [b]]; [[c]; [d]]] (Some [[1; 3; u]])%R = Ok out /\
    Spec.entry out 0 0 = ((a * 1 + c * 3) / (4 + Torch.eps))%R /\
    Spec.entry out 1 0 = ((b * 1 + d * 3) / (4 + Torch.eps))%R.
Proof.
  intros Hu.
  destruct (combine_weighted 2 1 [[[a]; [b]]; [[c]; [d]]] [[1; 3; u]]%R)
    as (out & Hout & _ & Hent); [lia|done|by repeat constructor|done|].
  exists out. split; [exact Hout|].
  pose proof eps_pos as He.
  rewrite !Hent by lia. unfold Spec.mix, Spec.weights, Spec.entry.
  cbn [nth removelast List.last].
  destruct (decide (u < 1 / 2)%R); [|contradiction].
  cbn [map zip_with Torch.sum fold_right nth]. split; field; lra.
Qed.

Lemma combine_uncertain_example (a b c d u : R) :
  (1 / 2 <= u)%R ->
  exists out,
    combine [[[a]; [b]]; [[c]; [d]]] (Some [[1; 3; u]])%R = Ok out /\
    Spec.entry out 0 0 = (a * 1 + c * 3)%R /\
    Spec.entry out 1 0 = (b * 1 + d * 3)%R.
Proof.
  intros Hu.
  destruct (combine_weighted 2 1 [[[a]; [b]]; [[c]; [d]]] [[1; 3; u]]%R)
    as (out & Hout & _ & Hent); [lia|done|by repeat constructor|done|].
  exists out. split; [exact Hout|].
  rewrite !Hent by lia. unfold Spec.mix, Spec.weights, Spec.entry.
  cbn [nth removelast List.last].
  destruct (decide (u < 1 / 2)%R); [lra|].
  cbn [map zip_with Torch.sum fold_right nth]. split; lra.
Qed.

(* ================================================================== *)
(** * Properties of the prompt-driven detector                         *)
(* ================================================================== *)

(** ** L2 normalization *)

Lemma sum_squares_nonneg (v : Vec) :
  (0 <= Torch.sum (map (fun x => x * x) v))%R.
Proof. induction v as [|x v IH]; simpl; [lra|]. nra. Qed.

Lemma sum_squares_scaled (v : Vec) (n : R) :
  n <> 0%R ->
  Torch.sum (map (fun x => x * x)%R (map (fun x => x / n)%R v)) =
  (Torch.sum (map (fun x => x * x)%R v) / (n * n))%R.
Proof.
  intros Hn. induction v as [|x v IH]; simpl; [field; done|].
  rewrite IH. field. done.
Qed.

(** A vector whose norm is at least [1e-12] has unit norm after
    normalization. *)
Lemma normalize_unit_norm (v : Vec) :
  (Torch.eps <= Torch.norm2 v)%R -> Torch.norm2 (Torch.normalize v) = 1%R.
Proof.
  intros Hv. pose proof eps_pos as He. unfold Torch.normalize.
  rewrite Rmax_left by done.
  unfold Torch.norm2 at 1. rewrite sum_squares_scaled by lra.
  unfold Torch.norm2. rewrite sqrt_sqrt by apply sum_squares_nonneg.
  unfold Torch.norm2 in Hv.
  assert (Hs : (0 < Torch.sum (map (fun x => x * x) v))%R).
  { pose proof (sum_squares_nonneg v) as H0.
    destruct (Req_dec (Torch.sum (map (fun x => x * x)%R v)) 0) as [E|E];
      [|lra].
    rewrite E, sqrt_0 in Hv. lra. }
  replace (_ / _)%R with 1%R by (field; lra). apply sqrt_1.
Qed.

(** A vector whose norm is below [1e-12] is divided by [1e-12]; its norm
    stays below one, and the zero vector stays zero. *)
Lemma normalize_small (v : Vec) :
  (Torch.norm2 v < Torch.eps)%R ->
  Torch.normalize v = map (fun x => x / Torch.eps)%R v /\
  (Torch.norm2 (Torch.normalize v) < 1)%R.
Proof.
  intros Hv. pose proof eps_pos as He. unfold Torch.normalize.
  rewrite Rmax_right by lra. split; [reflexivity|].
  unfold Torch.norm2 at 1. rewrite sum_squares_scaled by lra.
  unfold Torch.norm2 in Hv.
  pose proof (sum_squares_nonneg v) as Hs.
  set (s := Torch.sum _) in *.
  rewrite <- sqrt_1. apply sqrt_lt_1_alt. split.
  - apply Rmult_le_pos; [done|]. apply Rlt_le, Rinv_0_lt_compat. nra.
  - apply (Rmult_lt_reg_r (Torch.eps * Torch.eps)); [nra|].
    replace (s / (Torch.eps * Torch.eps) * (Torch.eps * Torch.eps))%R
      with s by (field; lra).
    rewrite Rmult_1_l. rewrite <- (sqrt_sqrt s) by done.
    pose proof (sqrt_pos s). nra.
Qed.

(** ** The adapter *)

Lemma linear_ok (i o : nat) (l : Torch.Linear) (x : Vec) :
  Spec.linear_shape i o l -> length x = i ->
  Torch.linear l x = Ok (Spec.linear_out l x) /\
  length (Spec.linear_out l x) = o.
Proof.
  intros (Hw & Hr & Hb) Hx. unfold Torch.linear.
  rewrite (proj2 (forallb_forall _ _)); cycle 1.
  { intros w Hin. apply Nat.eqb_eq. rewrite Forall_forall in Hr.
    rewrite Hx. by apply Hr, list_elem_of_In. }
  rewrite (proj2 (Nat.eqb_eq _ _)) by lia. split; [reflexivity|].
  unfold Spec.linear_out, Torch.vadd.
  rewrite length_zip_with_same; rewrite length_map; lia.
Qed.

Lemma residual_ok (d : nat) (a : Prompt.Adapter) (e : Vec) :
  Spec.adapter_shape d a -> length e = d ->
  Prompt.residual a e = Ok (Spec.adapter_update a e) /\
  length (Spec.adapter_update a e) = d.
Proof.
  intros [H1 H2] He. unfold Prompt.residual, Prompt.adapter_forward.
  destruct (linear_ok _ _ _ e H1 He) as [-> Hl1]. cbn [mbind Result_bind].
  assert (Hrelu : length (Torch.relu (Spec.linear_out (Prompt.fc1 a) e))
                  = d * 2).
  { unfold Torch.relu. by rewrite length_map. }
  destruct (linear_ok _ _ _ _ H2 Hrelu) as [-> Hl2].
  cbn [mbind Result_bind]. unfold Torch.add.
  rewrite (broadcast_same_length _ Rplus); cycle 1.
  { lia. }
  { apply Forall_forall. intros; reflexivity. }
  split; [reflexivity|].
  unfold Spec.adapter_update, Torch.vadd.
  rewrite length_zip_with_same; lia.
Qed.

Section PromptProperties.
Context `{FW : Framework}.

Lemma prompt_extract_feat_ok (self : Prompt.Detector) (a : Prompt.Adapter)
    (d : nat) (batch_inputs : Tensor) (samples : PyVal) (img0 : Tensor)
    (imgs : list Tensor) (ignored : T3) :
  Prompt.adapter self = Some a -> Spec.adapter_shape d a ->
  Forall (fun e => length e = d) (Prompt.embeddings self) ->
  backbone_forward batch_inputs PyNone = (img0 :: imgs, ignored) ->
  let txt_feats :=
    Torch.repeat_batch (shape0 img0)
      [map Torch.normalize
         (map (Spec.adapter_update a) (Prompt.embeddings self))] in
  Prompt.extract_feat self batch_inputs samples =
    Ok (apply_neck (Prompt.mm_neck self) (img0 :: imgs) txt_feats,
        txt_feats).
Proof.
  intros Ha Hshape Hemb Hbb txt_feats. unfold Prompt.extract_feat.
  rewrite Hbb, Ha.
  assert (Hres : Py.comprehension (Prompt.residual a)
                   (Prompt.embeddings self) =
                 Ok (map (Spec.adapter_update a) (Prompt.embeddings self))).
  { apply comprehension_ok. eapply Forall_impl; [exact Hemb|].
    intros e He. by apply (residual_ok d). }
  cbn [Py.comprehension mbind Result_bind]. rewrite Hres.
  reflexivity.
Qed.

End PromptProperties.

(** C7 (amended).  A detector constructed with [use_mlp_adapter] holds
    an adapter of two linear layers, from the prompt dimension to twice
    that dimension and back, with a ReLU in between.  With such an
    adapter, [extract_feat] adds the adapter's output to every embedding,
    normalizes every resulting vector along the embedding dimension and
    repeats the result for every image of the batch before the neck
    fuses it.  A vector whose norm before the normalization is at least
    [1e-12] has unit Euclidean norm afterwards; a vector of smaller norm
    is divided by [1e-12] and has a norm below one. *)
Theorem prompt_extract_feat_with_adapter `{FW : Framework} `{IE : InitEnv}
    (self : Prompt.Detector) (a : Prompt.Adapter) (d : nat)
    (batch_inputs : Tensor) (samples : PyVal) (img0 : Tensor)
    (imgs : list Tensor) (ignored : T3) :
  Prompt.adapter self = Some a -> Spec.adapter_shape d a ->
  Forall (fun e => length e = d) (Prompt.embeddings self) ->
  backbone_forward batch_inputs PyNone = (img0 :: imgs, ignored) ->
  let refined := map (Spec.adapter_update a) (Prompt.embeddings self) in
  let txt_feats :=
    Torch.repeat_batch (shape0 img0) [map Torch.normalize refined] in
  (forall mm ntr nte dim np path frz,
     Prompt.adapter (Prompt.init mm ntr nte dim np path frz true) =
       Some {| Prompt.fc1 := nn_Linear dim (dim * 2);
               Prompt.fc2 := nn_Linear (dim * 2) dim |}) /\
  Prompt.extract_feat self batch_inputs samples =
    Ok (apply_neck (Prompt.mm_neck self) (img0 :: imgs) txt_feats,
        txt_feats) /\
  (forall e, In e refined ->
     ((Torch.eps <= Torch.norm2 e)%R ->
        Torch.norm2 (Torch.normalize e) = 1%R) /\
     ((Torch.norm2 e < Torch.eps)%R ->
        Torch.normalize e = map (fun x => x / Torch.eps)%R e /\
        (Torch.norm2 (Torch.normalize e) < 1)%R)).
Proof.
  intros Ha Hshape Hemb Hbb refined txt_feats. split_and!.
  - reflexivity.
  - by apply (prompt_extract_feat_ok self a d _ _ _ _ ignored).
  - intros e _. split; [apply normalize_unit_norm|apply normalize_small].
Qed.

(** ** The conversion to single precision *)

Lemma Int_part_floor (r : R) (z : Z) :
  (IZR z <= r < IZR z + 1)%R -> Int_part r = z.
Proof. intros [H1 H2]. symmetry. apply Int_part_spec. lra. Qed.

Lemma round_even_IZR (z : Z) : Torch.round_even (IZR z) = z.
Proof.
  unfold Torch.round_even. rewrite (Int_part_floor (IZR z) z) by lra.
  destruct (decide _); [reflexivity|lra].
Qed.

Lemma ln_2_pos : (0 < ln 2)%R.
Proof. rewrite <- ln_1. apply ln_increasing; lra. Qed.

Lemma ln_powerRZ_2 (z : Z) : ln (powerRZ 2 z) = (IZR z * ln 2)%R.
Proof.
  destruct z as [|p|p]; simpl.
  - rewrite ln_1. lra.
  - rewrite ln_pow by lra. by rewrite INR_IZR_INZ, positive_nat_Z.
  - rewrite ln_Rinv by (apply pow_lt; lra).
    rewrite ln_pow by lra. rewrite INR_IZR_INZ, positive_nat_Z.
    change (Z.neg p) with (- Z.pos p)%Z. rewrite opp_IZR. lra.
Qed.

Lemma mag_lt (x : R) (z : Z) :
  x <> 0%R -> (Rabs x < powerRZ 2 z)%R -> (Torch.mag x < z)%Z.
Proof.
  intros Hx Hlt. unfold Torch.mag.
  assert (Ha : (0 < Rabs x)%R) by (by apply Rabs_pos_lt).
  pose proof (ln_increasing _ _ Ha Hlt) as Hln.
  rewrite ln_powerRZ_2 in Hln. pose proof ln_2_pos as H2.
  assert (Hq : (ln (Rabs x) / ln 2 < IZR z)%R).
  { apply (Rmult_lt_reg_r (ln 2)); [done|].
    unfold Rdiv. rewrite Rmult_assoc, Rinv_l by lra. lra. }
  destruct (base_Int_part (ln (Rabs x) / ln 2)) as [Hb _].
  apply lt_IZR. lra.
Qed.

Lemma mag_ge (x : R) (z : Z) :
  (powerRZ 2 z <= Rabs x)%R -> (z <= Torch.mag x)%Z.
Proof.
  intros Hle. unfold Torch.mag. pose proof ln_2_pos as H2.
  assert (Hp : (0 < powerRZ 2 z)%R) by (apply powerRZ_lt; lra).
  assert (Hln : (IZR z * ln 2 <= ln (Rabs x))%R).
  { rewrite <- ln_powerRZ_2. destruct Hle as [Hlt|<-]; [|lra].
    left. by apply ln_increasing. }
  assert (Hq : (IZR z <= ln (Rabs x) / ln 2)%R).
  { apply (Rmult_le_reg_r (ln 2)); [done|].
    unfold Rdiv. rewrite Rmult_assoc, Rinv_l by lra. lra. }
  destruct (base_Int_part (ln (Rabs x) / ln 2)) as [_ Hb].
  apply Z.lt_succ_r, lt_IZR. rewrite succ_IZR. lra.
Qed.

Lemma mag_exact (x : R) (z : Z) :
  (powerRZ 2 z <= Rabs x < powerRZ 2 (z + 1))%R -> Torch.mag x = z.
Proof.
  intros [Hlo Hhi].
  assert (Hx : x <> 0%R).
  { intros ->. rewrite Rabs_R0 in Hlo.
    pose proof (powerRZ_lt 2 z). lra. }
  pose proof (mag_lt x (z + 1) Hx Hhi). pose proof (mag_ge x z Hlo). lia.
Qed.

Lemma powerRZ_2_IZR (n : Z) : (0 <= n)%Z -> powerRZ 2 n = IZR (2 ^ n).
Proof.
  intros Hn. rewrite <- (Z2Nat.id n) by done.
  rewrite <- pow_powerRZ. by rewrite pow_IZR.
Qed.

Lemma float32_0 : Torch.float32 0 = 0%R.
Proof.
  unfold Torch.float32, Rdiv. rewrite Rmult_0_l.
  change 0%R with (IZR 0). rewrite round_even_IZR. simpl. lra.
Qed.

(** A single-precision number is converted to itself. *)
Lemma float32_representable (x : R) :
  Torch.representable32 x -> Torch.float32 x = x.
Proof.
  intros (m & e & Hm & He & Hx).
  destruct (Req_dec x 0) as [->|Hx0]; [apply float32_0|].
  subst x. unfold Torch.float32.
  set (x := (IZR m * powerRZ 2 e)%R) in *.
  set (k := Torch.ulp_exponent x).
  assert (H2 : forall z, powerRZ 2 z <> 0%R)
    by (intros; apply powerRZ_NOR; lra).
  assert (Hk : (k <= e)%Z).
  { unfold k, Torch.ulp_exponent.
    assert (Torch.mag x < 24 + e)%Z; [|lia].
    apply mag_lt; [done|]. unfold x. rewrite Rabs_mult.
    rewrite (Rabs_pos_eq (powerRZ 2 e)) by (apply powerRZ_le; lra).
    rewrite powerRZ_add by lra.
    apply Rmult_lt_compat_r; [apply powerRZ_lt; lra|].
    rewrite powerRZ_2_IZR by lia. rewrite <- abs_IZR. by apply IZR_lt. }
  assert (Hs : (x / powerRZ 2 k)%R = IZR (m * 2 ^ (e - k))).
  { unfold x. replace e with (k + (e - k))%Z at 1 by lia.
    rewrite powerRZ_add by lra. rewrite mult_IZR.
    rewrite <- powerRZ_2_IZR by lia. field. apply H2. }
  rewrite Hs, round_even_IZR, mult_IZR, <- powerRZ_2_IZR by lia.
  unfold x. replace e with (k + (e - k))%Z at 2 by lia.
  rewrite powerRZ_add by lra. ring.
Qed.

Lemma float_representable (t : Mat) :
  Forall (Forall Torch.representable32) t -> Torch.float t = t.
Proof.
  unfold Torch.float. induction 1 as [|r t Hr _ IH]; [reflexivity|].
  cbn [map]. rewrite IH. f_equal.
  induction Hr as [|x r Hx _ IHr]; [reflexivity|].
  cbn [map]. by rewrite IHr, float32_representable.
Qed.

(** [2^24 + 1] lies half way between two single-precision numbers and
    goes to the one with the even significand, [2^24]. *)
Lemma float32_16777217 : Torch.float32 16777217 = 16777216%R.
Proof.
  assert (Hm : Torch.mag 16777217 = 24%Z).
  { apply mag_exact. rewrite !powerRZ_2_IZR by lia.
    change (2 ^ 24)%Z with 16777216%Z.
    change (2 ^ (24 + 1))%Z with 33554432%Z.
    rewrite Rabs_pos_eq by lra. lra. }
  unfold Torch.float32, Torch.ulp_exponent. rewrite Hm.
  change (Z.max 24 (-126) - 23)%Z with 1%Z.
  rewrite powerRZ_2_IZR by lia. change (2 ^ 1)%Z with 2%Z.
  assert (Hr : Torch.round_even (16777217 / 2) = 8388608%Z).
  { unfold Torch.round_even.
    rewrite (Int_part_floor (16777217 / 2) 8388608) by lra.
    destruct (decide _); [lra|]. destruct (decide _); [lra|]. reflexivity. }
  rewrite Hr. lra.
Qed.

(** One tenth is not a single-precision number: it goes to its nearest
    neighbour [13421773 / 2^27], about [0.10000000149]. *)
Lemma float32_one_tenth :
  Torch.float32 (1 / 10) = (13421773 / 134217728)%R.
Proof.
  assert (Hm : Torch.mag (1 / 10) = (-4)%Z).
  { apply mag_exact. rewrite Rabs_pos_eq by lra. simpl. lra. }
  unfold Torch.float32, Torch.ulp_exponent. rewrite Hm.
  change (Z.max (-4) (-126) - 23)%Z with (-27)%Z.
  assert (Hp : powerRZ 2 (-27) = (/ 134217728)%R).
  { simpl. f_equal. lra. }
  rewrite Hp.
  assert (Hr : Torch.round_even (1 / 10 / / 134217728) = 13421773%Z).
  { unfold Torch.round_even.
    rewrite (Int_part_floor (1 / 10 / / 134217728) 13421772) by lra.
    destruct (decide _); [lra|]. destruct (decide _); [|lra]. reflexivity. }
  rewrite Hr. lra.
Qed.

(** C9 (amended).  A detector constructed with a non-empty
    [embedding_path], whose file holds values the conversion keeps
    finite, holds as embedding table the stored array converted to
    single precision, every value rounded to the nearest single-precision
    number.  The random sampler is not consulted: two construction
    environments that agree on the file give the same table.  The table
    is exactly the stored array when the stored values are
    single-precision numbers. *)
Theorem prompt_init_loads_embedding_file `{IE : InitEnv}
    (mm_neck : bool) (num_train_classes num_test_classes : nat)
    (prompt_dim num_prompts : nat) (embedding_path : string)
    (freeze_prompt use_mlp_adapter : bool) :
  0 < String.length embedding_path ->
  Forall (Forall Torch.float32_finite) (np_load embedding_path) ->
  let self :=
    Prompt.init mm_neck num_train_classes num_test_classes prompt_dim
      num_prompts embedding_path freeze_prompt use_mlp_adapter in
  Prompt.embeddings self =
    map (map Torch.float32) (np_load embedding_path) /\
  (forall IE' : InitEnv,
     @np_load IE' embedding_path = @np_load IE embedding_path ->
     Prompt.embeddings
       (@Prompt.init IE' mm_neck num_train_classes num_test_classes
          prompt_dim num_prompts embedding_path freeze_prompt
          use_mlp_adapter) =
     Prompt.embeddings self) /\
  (Forall (Forall Torch.representable32) (np_load embedding_path) ->
   Prompt.embeddings self = np_load embedding_path).
Proof.
  intros Hlen _ self. subst self. unfold Prompt.init.
  cbn [Prompt.embeddings]. rewrite (proj2 (Nat.ltb_lt _ _) Hlen).
  split_and!.
  - reflexivity.
  - intros IE' H. by rewrite H.
  - apply float_representable.
Qed.

(** A file that stores the integer [2^24 + 1]: the table holds [2^24],
    not the stored value. *)
Lemma prompt_init_rounds_embedding_file :
  let self := Prompt.init (IE := ExampleFiles.integer_file) false 80 80 1 1
                "emb.npy" false false in
  np_load (InitEnv := ExampleFiles.integer_file) "emb.npy" =
    [[16777217%R]] /\
  Prompt.embeddings self = [[16777216%R]] /\
  Prompt.embeddings self <>
    np_load (InitEnv := ExampleFiles.integer_file) "emb.npy".
Proof.
  assert (H : Prompt.embeddings
                (Prompt.init (IE := ExampleFiles.integer_file) false 80 80
                   1 1 "emb.npy" false false) = [[16777216%R]]).
  { change (Prompt.embeddings _) with [[Torch.float32 16777217]].
    by rewrite float32_16777217. }
  cbv zeta. split_and!; [reflexivity|exact H|].
  rewrite H. intros [= E]. lra.
Qed.

(** The zero embedding with an adapter without bias: the refined vector
    is zero, the normalization leaves it zero, and its norm is not one. *)
Lemma prompt_zero_embedding_not_unit :
  exists e,
    Prompt.extract_feat (FW := Example.framework) Example.zero_prompt 1
      PyNone = Ok ([1], [[e]]) /\
    Torch.norm2 e = 0%R /\ Torch.norm2 e <> 1%R.
Proof.
  assert (Hshape : Spec.adapter_shape 1
            {| Prompt.fc1 := {| Torch.weight := [[1]; [1]]%R;
                                Torch.bias := [0; 0]%R |};
               Prompt.fc2 := {| Torch.weight := [[1; 1]]%R;
                                Torch.bias := [0%R] |} |}).
  { split; (split_and!; [reflexivity|by repeat constructor|reflexivity]). }
  pose proof (prompt_extract_feat_ok (FW := Example.framework)
                Example.zero_prompt _ 1 1 PyNone 1 [] Example.text_features
                eq_refl Hshape) as H.
  eexists. split.
  - rewrite H; [|by repeat constructor|reflexivity]. reflexivity.
  - cbn [Example.zero_prompt Prompt.embeddings map].
    assert (Hu : Spec.adapter_update
              {| Prompt.fc1 := {| Torch.weight := [[1]; [1]]%R;
                                  Torch.bias := [0; 0]%R |};
                 Prompt.fc2 := {| Torch.weight := [[1; 1]]%R;
                                  Torch.bias := [0%R] |} |} [0%R] = [0%R]).
    { cbv [Spec.adapter_update Spec.linear_out Torch.vadd Torch.relu
           Torch.dot Torch.sum zip_with map fold_right
           Prompt.fc1 Prompt.fc2 Torch.weight Torch.bias].
      f_equal. unfold Rmax. repeat destruct (Rle_dec _ _); lra. }
    rewrite Hu.
    assert (Hn : Torch.normalize [0%R] = [0%R]).
    { unfold Torch.normalize. cbn [map]. f_equal. unfold Rdiv.
      apply Rmult_0_l. }
    rewrite Hn.
    assert (H0 : Torch.norm2 [0%R] = 0%R).
    { unfold Torch.norm2. cbn [map Torch.sum fold_right].
      replace (0 * 0 + 0)%R with 0%R by lra. apply sqrt_0. }
    rewrite H0. split; [reflexivity|lra].
Qed.

Lemma prompt_extract_feat_with_adapter_witness :
  Prompt.extract_feat (FW := Example.framework) Example.zero_prompt 2
    PyNone =
  Ok ([2],
      Torch.repeat_batch 2
        [map Torch.normalize
           (map (Spec.adapter_update
                   {| Prompt.fc1 := {| Torch.weight := [[1]; [1]]%R;
                                       Torch.bias := [0; 0]%R |};
                      Prompt.fc2 := {| Torch.weight := [[1; 1]]%R;
                                       Torch.bias := [0%R] |} |})
              [[0%R]])]).
Proof.
  assert (Hshape : Spec.adapter_shape 1
            {| Prompt.fc1 := {| Torch.weight := [[1]; [1]]%R;
                                Torch.bias := [0; 0]%R |};
               Prompt.fc2 := {| Torch.weight := [[1; 1]]%R;
                                Torch.bias := [0%R] |} |}).
  { split; (split_and!; [reflexivity|by repeat constructor|reflexivity]). }
  apply (prompt_extract_feat_with_adapter (FW := Example.framework)
           (IE := Example.init_env) Example.zero_prompt _ 1 2 PyNone 2 []
           Example.text_features eq_refl Hshape).
  - by repeat constructor.
  - reflexivity.
Defined.

Lemma prompt_init_loads_embedding_file_witness :
  Prompt.embeddings
    (Prompt.init (IE := ExampleFiles.single_precision_file) false 80 80 2 1
       "emb.npy" false false) = [[1 / 2; -3]]%R.
Proof.
  assert (Hlen : 0 < String.length "emb.npy") by (simpl; lia).
  assert (Hfin : Forall (Forall Torch.float32_finite)
                   (np_load (InitEnv := ExampleFiles.single_precision_file)
                      "emb.npy")).
  { repeat constructor; unfold Torch.float32_finite;
      change (2 ^ 128 - 2 ^ 103)%Z
        with 340282356779733661637539395458142568448%Z;
      unfold Rabs; destruct (Rcase_abs _); lra. }
  destruct (prompt_init_loads_embedding_file
              (IE := ExampleFiles.single_precision_file) false 80 80 2 1
              "emb.npy" false false Hlen Hfin) as (_ & _ & H).
  apply H. repeat constructor.
  - exists 1%Z, (-1)%Z. split_and!; [reflexivity|lia|lia|simpl; lra].
  - exists (-3)%Z, 0%Z. split_and!; [reflexivity|lia|lia|simpl; lra].
Defined.

(* ================================================================== *)
(** * The properties on the concrete configuration                     *)
(* ================================================================== *)

(** After [reparameterize] the example detector predicts without
    samples: the head's class count becomes 3, the class dimension of
    the cached features, although 80 test classes are configured. *)
Lemma predict_sets_num_classes_from_text_features_witness :
  let out := predict (FW := Example.framework) 2 PyNone true
               Example.cached in
  out.1 = Ok (PyTuple [PyNone; PyNum 3]) /\
  bbox_head_num_classes out.2 = 3 /\
  num_test_classes out.2 = 80.
Proof.
  destruct (predict_sets_num_classes_from_text_features
              (FW := Example.framework) Example.cached
              (record_call ForwardImage Example.cached) 2 PyNone true [2]
              [[1; 0]; [0; 1]; [1; 1]]%R [] eq_refl)
    as (H1 & H2 & _ & H4).
  cbv zeta. split_and!; [exact H1|exact H2|exact H4].
Defined.

Lemma extract_feat_cached_runs_image_branch_only_witness :
  extract_feat (FW := Example.framework) 2 PyNone Example.cached =
  (Ok ([2], Example.text_features),
   record_call ForwardImage Example.cached).
Proof.
  exact (proj1 (extract_feat_cached_runs_image_branch_only
                  (FW := Example.framework) Example.cached 2)
           PyNone (PyList [PyList [PyStr "cat"]]) Example.text_features
           (or_introl eq_refl) eq_refl eq_refl).
Defined.

(** Two heads, two classes, one location and one supervised row of
    weights. *)
Lemma query_cls_embed_weighted_combination_witness :
  exists scores labels cls_logit,
    (query_cls_embed (FW := Example.framework)
       (TextTensor [[1; 0]; [0; 1]]%R) 1 (Some [[1; 3; 0]]%R) false true
       Example.detector).1 = Ok (scores, labels, cls_logit) /\
    Torch.has_shape 2 1 cls_logit = true.
Proof.
  destruct (query_cls_embed_weighted_combination
              (FW := Example.framework) Example.detector
              (TextTensor [[1; 0]; [0; 1]]%R) 1 [[1; 3; 0]]%R false true
              2 1)
    as (scores & labels & cls_logit & H1 & H2 & _).
  - exact I.
  - lia.
  - discriminate.
  - by repeat constructor.
  - reflexivity.
  - exists scores, labels, cls_logit. split; [exact H1|exact H2].
Defined.

Lemma query_cls_embed_mean_of_heads_witness :
  exists scores labels cls_logit,
    (query_cls_embed (FW := Example.framework)
       (TextList [PyStr "cat"; PyStr "dog"]) 1 None false false
       Example.detector).1 = Ok (scores, labels, cls_logit) /\
    length scores = 1 /\ length labels = 1.
Proof.
  destruct (query_cls_embed_mean_of_heads
              (FW := Example.framework) Example.detector
              (TextList [PyStr "cat"; PyStr "dog"]) 1 false false 2 1)
    as (scores & labels & cls_logit & H1 & _ & H2 & H3 & _).
  - simpl. eauto.
  - lia.
  - discriminate.
  - by repeat constructor.
  - exists scores, labels, cls_logit. split_and!; assumption.
Defined.

(* ================================================================== *)
(** * Further properties of the text-driven detector                   *)
(* ================================================================== *)

Lemma keeps_settings_record_calls (cs : list Call) (det : Detector) :
  keeps_settings det (record_calls cs det).
Proof. by repeat split. Qed.

Lemma keeps_settings_trans (a b c : Detector) :
  keeps_settings a b -> keeps_settings b c -> keeps_settings a c.
Proof.
  intros (H1 & H2 & H3 & H4 & H5) (K1 & K2 & K3 & K4 & K5).
  repeat split; congruence.
Qed.

Lemma text_source_reads_only (det : Detector) (samples : PyVal) :
  (text_source samples det).2 = det.
Proof.
  destruct det as [mm ntr nte tx tf h cs]. unfold text_source.
  destruct (Py.is_none samples); [by destruct tx, tf|].
  destruct (Py.is_dict_with "texts" samples);
    [by destruct (Py.subscript "texts" samples)|].
  destruct (Py.is_list_whose_first_has "texts" samples) as [[|]|e];
    [|by destruct tx, tf|reflexivity].
  by destruct (Py.gather_attr "texts" samples).
Qed.

(** The texts are resolved from the samples and the cache alone: the
    head's class count plays no part. *)
Lemma text_source_set_num_classes (det : Detector) (samples : PyVal)
    (n : nat) :
  (text_source samples (set_num_classes n det)).1 =
  (text_source samples det).1.
Proof.
  destruct det as [mm ntr nte tx tf h cs]. unfold text_source.
  destruct (Py.is_none samples); [by destruct tx, tf|].
  destruct (Py.is_dict_with "texts" samples);
    [by destruct (Py.subscript "texts" samples)|].
  destruct (Py.is_list_whose_first_has "texts" samples) as [[|]|e];
    [|by destruct tx, tf|reflexivity].
  by destruct (Py.gather_attr "texts" samples).
Qed.

Section FurtherDetectorProperties.
Context `{HR : HeadRoutines}.

Lemma text_source_pair (det : Detector) (samples : PyVal) :
  text_source samples det = ((text_source samples det).1, det).
Proof.
  rewrite <- (text_source_reads_only det samples) at 3.
  by destruct (text_source samples det).
Qed.

Lemma extract_feat_set_num_classes (det : Detector) (batch_inputs : Tensor)
    (samples : PyVal) (n : nat) :
  extract_feat batch_inputs samples (set_num_classes n det) =
  ((extract_feat batch_inputs samples det).1,
   set_num_classes n (extract_feat batch_inputs samples det).2).
Proof.
  rewrite (extract_feat_of_source (set_num_classes n det) batch_inputs
             samples _ (text_source_pair _ _)).
  rewrite (extract_feat_of_source det batch_inputs samples _
             (text_source_pair _ _)).
  rewrite text_source_set_num_classes.
  destruct (text_source samples det).1 as [[t [f|]]|e]; reflexivity.
Qed.

(** X1.  [extract_feat] changes nothing of the detector but the record
    of calls.  When it raises it has called nothing; when it returns it
    has made exactly one backbone call, either [forward_image] or the
    joint call on some texts. *)
Theorem extract_feat_one_backbone_call (det : Detector)
    (batch_inputs : Tensor) (samples : PyVal) :
  let out := extract_feat batch_inputs samples det in
  (exists e, out = (Raise e, det)) \/
  (exists r, out.1 = Ok r /\
     (out.2 = record_call ForwardImage det \/
      exists t, out.2 = record_call (BackboneJoint t) det)).
Proof.
  cbv zeta.
  rewrite (extract_feat_of_source det batch_inputs samples _
             (text_source_pair _ _)).
  destruct (text_source samples det).1 as [[t [f|]]|e].
  - right. eexists. split; [reflexivity|]. by left.
  - right. eexists. split; [reflexivity|]. right. by exists t.
  - left. by exists e.
Qed.

Lemma extract_feat_keeps_settings (det : Detector) (batch_inputs : Tensor)
    (samples : PyVal) :
  keeps_settings det (extract_feat batch_inputs samples det).2 /\
  bbox_head_num_classes (extract_feat batch_inputs samples det).2 =
    bbox_head_num_classes det.
Proof.
  rewrite (extract_feat_of_source det batch_inputs samples _
             (text_source_pair _ _)).
  destruct (text_source samples det).1 as [[t [f|]]|e];
    split; try reflexivity; by repeat split.
Qed.

Lemma loss_run (det : Detector) (batch_inputs : Tensor) (samples : PyVal) :
  loss batch_inputs samples det =
    match extract_feat batch_inputs samples det with
    | (Ok (img_feats, txt_feats), det') =>
        (Ok (bbox_head_loss (num_train_classes det) img_feats txt_feats
               samples),
         set_num_classes (num_train_classes det) det')
    | (Raise e, det') =>
        (Raise e, set_num_classes (num_train_classes det) det')
    end.
Proof.
  unfold loss. run_method. rewrite extract_feat_set_num_classes.
  destruct (extract_feat batch_inputs samples det) as [[[img txt]|e] d'];
    reflexivity.
Qed.

Lemma forward_run (det : Detector) (batch_inputs : Tensor)
    (samples : PyVal) :
  _forward batch_inputs samples det =
    match extract_feat batch_inputs samples det with
    | (Ok (img_feats, txt_feats), det') =>
        (Ok (bbox_head_forward (bbox_head_num_classes det) img_feats
               txt_feats), det')
    | (Raise e, det') => (Raise e, det')
    end.
Proof.
  pose proof (extract_feat_keeps_settings det batch_inputs samples)
    as [_ Hn].
  unfold _forward. run_method.
  destruct (extract_feat batch_inputs samples det) as [[[img txt]|e] d'];
    [|reflexivity].
  cbn [snd] in Hn. by rewrite Hn.
Qed.

Lemma predict_run (det : Detector) (batch_inputs : Tensor)
    (samples : PyVal) (rescale : bool) :
  predict batch_inputs samples rescale det =
    match extract_feat batch_inputs samples det with
    | (Ok (img_feats, txt0 :: txt), det') =>
        (Ok (add_pred_to_datasample samples
               (bbox_head_predict (length txt0) img_feats (txt0 :: txt)
                  samples rescale)),
         record_call (HeadPredict (length txt0))
           (set_num_classes (length txt0) det'))
    | (Ok (img_feats, []), det') => (Raise IndexError, det')
    | (Raise e, det') => (Raise e, det')
    end.
Proof.
  unfold predict. run_method.
  destruct (extract_feat batch_inputs samples det)
    as [[[img [|txt0 txt]]|e] d']; reflexivity.
Qed.

(** X2.  [loss] is: set the head's class count to [num_train_classes],
    extract the features, hand them to the head's loss routine.  The
    count is set before the extraction, so it is [num_train_classes]
    afterwards also when the extraction raises. *)
Theorem loss_sets_train_classes_before_extraction (det : Detector)
    (batch_inputs : Tensor) (samples : PyVal) :
  let n := num_train_classes det in
  loss batch_inputs samples det =
    match extract_feat batch_inputs samples det with
    | (Ok (img_feats, txt_feats), det') =>
        (Ok (bbox_head_loss n img_feats txt_feats samples),
         set_num_classes n det')
    | (Raise e, det') => (Raise e, set_num_classes n det')
    end /\
  bbox_head_num_classes (loss batch_inputs samples det).2 = n.
Proof.
  cbv zeta. split; [apply loss_run|]. rewrite loss_run.
  destruct (extract_feat batch_inputs samples det) as [[[img txt]|e] d'];
    reflexivity.
Qed.

(** X3.  [_forward] hands the extracted features to the head's forward
    routine and leaves the head's class count as the last [loss] or
    [predict] set it. *)
Theorem forward_keeps_head_class_count (det : Detector)
    (batch_inputs : Tensor) (samples : PyVal) :
  _forward batch_inputs samples det =
    match extract_feat batch_inputs samples det with
    | (Ok (img_feats, txt_feats), det') =>
        (Ok (bbox_head_forward (bbox_head_num_classes det) img_feats
               txt_feats), det')
    | (Raise e, det') => (Raise e, det')
    end /\
  bbox_head_num_classes (_forward batch_inputs samples det).2 =
    bbox_head_num_classes det.
Proof.
  pose proof (extract_feat_keeps_settings det batch_inputs samples)
    as [_ Hn].
  split; [apply forward_run|]. rewrite forward_run.
  destruct (extract_feat batch_inputs samples det) as [[[img txt]|e] d'];
    exact Hn.
Qed.

(** X4.  When [predict] raises, the head is untouched: its class count
    is what it was and its predict routine has not been called.  (The
    count is assigned only after the extraction and after
    [txt_feats[0]].) *)
Theorem predict_failure_leaves_head (det : Detector)
    (batch_inputs : Tensor) (samples : PyVal) (rescale : bool) (e : Exn) :
  (predict batch_inputs samples rescale det).1 = Raise e ->
  bbox_head_num_classes (predict batch_inputs samples rescale det).2 =
    bbox_head_num_classes det /\
  (predict batch_inputs samples rescale det).2 =
    (extract_feat batch_inputs samples det).2.
Proof.
  pose proof (extract_feat_keeps_settings det batch_inputs samples)
    as [_ Hn].
  unfold predict. run_method.
  destruct (extract_feat batch_inputs samples det) as [[[img txt]|e'] d'].
  - destruct txt as [|txt0 txt]; [|discriminate].
    intros _. by split.
  - intros _. by split.
Qed.


Lemma query_cls_embed_state (det : Detector) (texts : QueryTexts)
    (cls_embed : Tensor) (scale_logits : option Mat)
    (consider_uncertainty pre_normalized : bool) :
  exists cs,
    (query_cls_embed texts cls_embed scale_logits consider_uncertainty
       pre_normalized det).2 = record_calls cs det.
Proof.
  destruct texts as [[|x xs]|t].
  - exists []. by rewrite record_calls_nil.
  - destruct (Py.isinstance_str x) eqn:Hx.
    + eexists. rewrite query_cls_embed_accepted by (simpl; eauto).
      reflexivity.
    + exists []. rewrite query_cls_embed_rejected by done.
      by rewrite record_calls_nil.
  - eexists. rewrite query_cls_embed_accepted by exact I. reflexivity.
Qed.

(** X5.  Feature extraction, prediction, the loss, the raw forward pass
    and the class-embedding query all leave the configured fields and
    the cached texts and embeddings as they were, whether they return
    or raise: the cache changes through [reparameterize] only. *)
Theorem cache_changes_through_reparameterize_only (det : Detector)
    (batch_inputs : Tensor) (samples : PyVal) (rescale : bool)
    (texts : QueryTexts) (cls_embed : Tensor) (scale_logits : option Mat)
    (consider_uncertainty pre_normalized : bool) :
  keeps_settings det (extract_feat batch_inputs samples det).2 /\
  keeps_settings det (predict batch_inputs samples rescale det).2 /\
  keeps_settings det (loss batch_inputs samples det).2 /\
  keeps_settings det (_forward batch_inputs samples det).2 /\
  keeps_settings det
    (query_cls_embed texts cls_embed scale_logits consider_uncertainty
       pre_normalized det).2.
Proof.
  pose proof (extract_feat_keeps_settings det batch_inputs samples)
    as [He _].
  split_and!.
  - exact He.
  - rewrite predict_run.
    destruct (extract_feat batch_inputs samples det)
      as [[[img [|txt0 txt]]|e] d']; exact He.
  - rewrite loss_run.
    destruct (extract_feat batch_inputs samples det) as [[[img txt]|e] d'];
      exact He.
  - rewrite forward_run.
    destruct (extract_feat batch_inputs samples det) as [[[img txt]|e] d'];
      exact He.
  - destruct (query_cls_embed_state det texts cls_embed scale_logits
                consider_uncertainty pre_normalized) as [cs ->].
    apply keeps_settings_record_calls.
Qed.

(** X6.  On a detector that was constructed and never reparameterized,
    a call without samples finds no cached texts: [predict] and
    [_forward] raise [AttributeError] and change nothing, [loss] raises
    it after it has set the head's class count. *)
Theorem fresh_detector_without_samples (mm : bool)
    (num_train num_test head_classes : nat) (batch_inputs : Tensor)
    (rescale : bool) :
  let det := init mm num_train num_test head_classes in
  predict batch_inputs PyNone rescale det = (Raise AttributeError, det) /\
  _forward batch_inputs PyNone det = (Raise AttributeError, det) /\
  loss batch_inputs PyNone det =
    (Raise AttributeError, set_num_classes num_train det).
Proof. by split_and!. Qed.

(** X7.  A tuple of samples is never read, whatever its elements carry:
    only a [list] enters the samples branch.  With cached embeddings the
    cache is used and the image branch runs alone; without them the
    call raises [TypeError]. *)
Theorem extract_feat_ignores_tuples (det : Detector)
    (batch_inputs : Tensor) (xs : list PyVal) :
  (text_feats det = None ->
     extract_feat batch_inputs (PyTuple xs) det = (Raise TypeError, det)) /\
  (forall t f, texts det = Some t -> text_feats det = Some f ->
     extract_feat batch_inputs (PyTuple xs) det =
       (Ok (apply_neck (mm_neck det)
              (backbone_forward_image batch_inputs) f, f),
        record_call ForwardImage det)).
Proof.
  assert (Hu : unmatched (PyTuple xs)) by (by repeat split).
  split.
  - intros Hf.
    rewrite (extract_feat_of_source det batch_inputs _ _
               (text_source_unmatched det _ Hu)).
    by rewrite Hf.
  - intros t f Ht Hf.
    rewrite (extract_feat_of_source det batch_inputs _ _
               (text_source_unmatched det _ Hu)).
    rewrite Hf. unfold cached_source. by rewrite Ht, Hf.
Qed.

(** X8.  A second [reparameterize] replaces the cache: the texts and
    embeddings are those of the second call, the text encoder has run
    once per call, and a later extraction without samples returns the
    embeddings of the second texts through the image branch alone. *)
Theorem reparameterize_replaces_cache (det : Detector)
    (batch_inputs : Tensor) (texts1 texts2 : PyVal) :
  let det2 := (reparameterize texts2 (reparameterize texts1 det).2).2 in
  texts det2 = Some texts2 /\
  text_feats det2 = Some (backbone_forward_text texts2) /\
  calls det2 = calls det ++ [ForwardText texts1; ForwardText texts2] /\
  extract_feat batch_inputs PyNone det2 =
    (Ok (apply_neck (mm_neck det)
           (backbone_forward_image batch_inputs)
           (backbone_forward_text texts2),
         backbone_forward_text texts2),
     record_call ForwardImage det2).
Proof.
  cbv zeta. rewrite !reparameterize_state. cbn [snd].
  split_and!; try reflexivity.
  cbn. by rewrite <- app_assoc.
Qed.

End FurtherDetectorProperties.

(* ================================================================== *)
(** * Further properties of the class-embedding query                  *)
(* ================================================================== *)

Lemma contrast_calls_encode_no_text (pre_normalized : bool) (i n : nat) :
  filter encodes_text (contrast_calls pre_normalized i n) = [] /\
  length (contrast_calls pre_normalized i n) = n.
Proof.
  unfold contrast_calls. rewrite length_map, length_seq. split; [|done].
  revert i. induction n as [|n IH]; intros i; [reflexivity|].
  cbn. apply IH.
Qed.

Section FurtherQueryProperties.
Context `{FW : Framework}.

(** X9.  With a tensor of precomputed embeddings the query never runs
    the text encoder, and it evaluates every contrastive head, whether
    the combination then succeeds or raises. *)
Theorem query_cls_embed_tensor_skips_text_encoder (det : Detector)
    (t : Mat) (cls_embed : Tensor) (scale_logits : option Mat)
    (consider_uncertainty pre_normalized : bool) :
  let out := query_cls_embed (TextTensor t) cls_embed scale_logits
               consider_uncertainty pre_normalized det in
  filter encodes_text (calls out.2) = filter encodes_text (calls det) /\
  calls out.2 =
    calls det ++
    map (fun k => ContrastForward k pre_normalized)
        (seq 0 (length cls_contrasts)).
Proof.
  cbv zeta. rewrite query_cls_embed_accepted by exact I.
  cbn [snd calls record_calls query_calls app]. split; [|reflexivity].
  rewrite filter_app.
  rewrite (proj1 (contrast_calls_encode_no_text _ _ _)).
  by rewrite app_nil_r.
Qed.

(** X10.  A list of texts that is empty or starts with something other
    than a string is rejected before anything is called: the empty list
    with [IndexError] (from [texts[0]]), the other with
    [AssertionError]; the detector is unchanged. *)
Theorem query_cls_embed_rejects_before_any_call (det : Detector)
    (xs : list PyVal) (cls_embed : Tensor) (scale_logits : option Mat)
    (consider_uncertainty pre_normalized : bool) :
  ~ accepted (TextList xs) ->
  query_cls_embed (TextList xs) cls_embed scale_logits
      consider_uncertainty pre_normalized det =
    (Raise match xs with [] => IndexError | _ => AssertionError end, det).
Proof.
  intros Hna. destruct xs as [|x xs]; [reflexivity|].
  apply query_cls_embed_rejected.
  destruct (Py.isinstance_str x) eqn:Hx; [|reflexivity].
  exfalso. apply Hna. simpl. eauto.
Qed.

(** X11.  With no contrastive head configured, a query with accepted
    texts and no [scale_logits] raises [RuntimeError] (there is nothing
    to stack); so does a query with [scale_logits] whose rows all have a
    last channel. *)
Theorem query_cls_embed_without_heads (det : Detector) (texts : QueryTexts)
    (cls_embed : Tensor) (consider_uncertainty pre_normalized : bool) :
  cls_contrasts = [] -> accepted texts ->
  (query_cls_embed texts cls_embed None consider_uncertainty
     pre_normalized det).1 = Raise RuntimeError /\
  (forall scale_logits,
     Forall (fun r => r <> []) scale_logits ->
     (query_cls_embed texts cls_embed (Some scale_logits)
        consider_uncertainty pre_normalized det).1 = Raise RuntimeError).
Proof.
  intros Hheads Hacc. split.
  - rewrite query_cls_embed_accepted by done. by rewrite Hheads.
  - intros scale Hrows. rewrite query_cls_embed_accepted by done.
    rewrite Hheads. cbn [fst head_maps map]. unfold scores_of, combine.
    by rewrite last_channel_ok.
Qed.

End FurtherQueryProperties.

(* ================================================================== *)
(** * Bounds on the combined logits                                    *)
(* ================================================================== *)

Lemma sigmoid_bounds (x : R) : (0 < Torch.sigmoid x < 1)%R.
Proof.
  unfold Torch.sigmoid. pose proof (exp_pos (- x)) as He.
  split.
  - apply Rdiv_lt_0_compat; lra.
  - apply (Rmult_lt_reg_r (1 + exp (- x))); [lra|].
    unfold Rdiv. rewrite Rmult_assoc, Rinv_l by lra. lra.
Qed.

Lemma sigmoid_mat_entry (C V : nat) (m : Mat) (c v : nat) :
  Torch.has_shape C V m = true -> c < C -> v < V ->
  Spec.entry (Torch.sigmoid_mat m) c v = Torch.sigmoid (Spec.entry m c v).
Proof.
  intros Hm Hc Hv. apply has_shape_spec in Hm as [HC HV].
  unfold Spec.entry, Torch.sigmoid_mat.
  rewrite (nth_map_in _ _ _ []) by lia.
  rewrite (nth_map_in _ _ _ 0%R); [reflexivity|].
  rewrite Forall_forall in HV. rewrite (HV (nth c m [])); [lia|].
  apply list_elem_of_In, nth_In. lia.
Qed.

Lemma sigmoid_mat_shape (C V : nat) (m : Mat) :
  Torch.has_shape C V (Torch.sigmoid_mat m) = true ->
  Torch.has_shape C V m = true.
Proof.
  rewrite !has_shape_spec. unfold Torch.sigmoid_mat.
  rewrite length_map. intros [HC HV]. split; [done|].
  rewrite Forall_forall in *. intros r Hr.
  specialize (HV (map Torch.sigmoid r)). rewrite length_map in HV.
  apply HV. apply list_elem_of_In, in_map. by apply list_elem_of_In.
Qed.

Lemma sum_bounds (xs : Vec) :
  xs <> [] -> Forall (fun x => 0 < x < 1)%R xs ->
  (0 < Torch.sum xs < INR (length xs))%R.
Proof.
  intros Hne Hxs. destruct Hxs as [|x xs Hx Hxs]; [done|]. clear Hne.
  revert x Hx. induction Hxs as [|y ys Hy _ IH]; intros x Hx.
  - simpl. lra.
  - specialize (IH y Hy). change (length (x :: y :: ys))
      with (S (length (y :: ys))). rewrite S_INR.
    change (Torch.sum (x :: y :: ys))
      with (x + Torch.sum (y :: ys))%R. lra.
Qed.

Lemma mix_bounds (ms : list Mat) (ws : Vec) (c v : nat) :
  Forall (fun m => 0 < Spec.entry m c v < 1)%R ms ->
  Forall (fun w => 0 <= w)%R ws ->
  (0 <= Torch.sum (zip_with (fun m w => Spec.entry m c v * w) ms ws)
   <= Torch.sum ws)%R.
Proof.
  intros Hms. revert ws. induction Hms as [|m ms Hm _ IH]; intros ws Hws.
  - simpl. clear -Hws. induction Hws as [|w ws Hw _ IH]; simpl; lra.
  - destruct Hws as [|w ws Hw Hws]; [simpl; lra|].
    specialize (IH ws Hws). unfold Torch.sum in *.
    cbn [zip_with fold_right] in *. nra.
Qed.

Lemma sum_nonneg (ws : Vec) :
  Forall (fun w => 0 <= w)%R ws -> (0 <= Torch.sum ws)%R.
Proof. induction 1 as [|w ws Hw _ IH]; simpl; lra. Qed.

Lemma sum_zeros (ws : Vec) :
  Forall (fun w => w = 0%R) ws -> Torch.sum ws = 0%R.
Proof. induction 1 as [|w ws Hw _ IH]; simpl; lra. Qed.

Lemma zero_weights_zero_terms (ms : list Mat) (ws : Vec) (d : R)
    (c v : nat) :
  Forall (fun w => w = 0%R) ws ->
  Forall (fun x => x = 0%R)
    (zip_with (fun m w => Spec.entry m c v * w)%R ms
       (map (fun x => x / d)%R ws)).
Proof.
  intros Hw. revert ms.
  induction Hw as [|w ws Hw _ IH]; intros [|m ms]; try constructor.
  - subst w. unfold Rdiv. lra.
  - apply IH.
Qed.

Section LogitBounds.
Context `{FW : Framework}.

Lemma head_maps_entries (pre_normalized : bool) (cls_embed : Tensor)
    (txt_feats : T3) (heads : list (Contrast Tensor)) (C V c v : nat) :
  Forall (fun m => Torch.has_shape C V m = true)
    (head_maps pre_normalized cls_embed txt_feats heads) ->
  c < C -> v < V ->
  Forall (fun m => 0 < Spec.entry m c v < 1)%R
    (head_maps pre_normalized cls_embed txt_feats heads).
Proof.
  intros Hsh Hc Hv. unfold head_maps in *.
  rewrite Forall_map in *. eapply Forall_impl; [exact Hsh|].
  intros h Hh. cbv beta in *.
  rewrite (sigmoid_mat_entry C V) by (try apply sigmoid_mat_shape; done).
  apply sigmoid_bounds.
Qed.

(** X12.  Without [scale_logits] every entry of the returned logit map
    and every score lies in the closed interval from 0 to 1: the map is
    a mean of sigmoids. *)
Theorem query_cls_embed_mean_in_unit_interval (det : Detector)
    (texts : QueryTexts) (cls_embed : Tensor)
    (consider_uncertainty pre_normalized : bool) (C V : nat) :
  let maps := head_maps pre_normalized cls_embed (class_embeddings texts)
                cls_contrasts in
  accepted texts -> 0 < C -> cls_contrasts <> [] ->
  Forall (fun m => Torch.has_shape C V m = true) maps ->
  exists scores labels cls_logit,
    (query_cls_embed texts cls_embed None consider_uncertainty
       pre_normalized det).1 = Ok (scores, labels, cls_logit) /\
    (forall c v, c < C -> v < V ->
       (0 <= Spec.entry cls_logit c v <= 1)%R) /\
    (forall v, v < V -> (0 <= nth v scores 0 <= 1)%R).
Proof.
  intros maps Hacc HC Hheads Hmaps.
  assert (Hne : maps <> []).
  { unfold maps, head_maps. destruct cls_contrasts; [done|discriminate]. }
  destruct (combine_mean C V maps Hne Hmaps) as (out & Hout & Hsh & Hent).
  destruct (scores_of_ok C V maps _ out HC Hout Hsh)
    as (scores & labels & Hs & _ & _ & Hmax).
  assert (Hin : forall c v, c < C -> v < V ->
            (0 < Spec.entry out c v < 1)%R).
  { intros c v Hc Hv. rewrite (Hent c v Hc Hv). unfold Spec.mean.
    pose proof (head_maps_entries _ _ _ _ C V c v Hmaps Hc Hv) as Hb.
    fold maps in Hb.
    assert (Hs' : (0 < Torch.sum (map (fun m => Spec.entry m c v) maps)
                   < INR (length (map (fun m => Spec.entry m c v) maps)))%R).
    { apply sum_bounds; [by destruct maps|]. by rewrite Forall_map. }
    rewrite length_map in Hs'.
    assert (HH : (0 < INR (length maps))%R).
    { apply lt_0_INR. destruct maps; [done|simpl; lia]. }
    split.
    - apply Rdiv_lt_0_compat; lra.
    - apply (Rmult_lt_reg_r (INR (length maps))); [done|].
      unfold Rdiv. rewrite Rmult_assoc, Rinv_l by lra. lra. }
  exists scores, labels, out.
  rewrite query_cls_embed_accepted by done. split_and!; [done| |].
  - intros c v Hc Hv. pose proof (Hin c v Hc Hv). lra.
  - intros v Hv. destruct (Hmax v Hv) as (Hl & -> & _).
    pose proof (Hin _ v Hl Hv). lra.
Qed.

(** X13.  With [scale_logits] supplied and non-negative weights at a
    location, the combined logits at that location lie between 0 and the
    total of the weights that enter the combination there: the
    normalized weights where the location is supervised, the weights as
    given where it is uncertain. *)
Theorem query_cls_embed_weighted_logit_bounds (det : Detector)
    (texts : QueryTexts) (cls_embed : Tensor) (scale_logits : Mat)
    (consider_uncertainty pre_normalized : bool) (C V v : nat) :
  let maps := head_maps pre_normalized cls_embed (class_embeddings texts)
                cls_contrasts in
  let row := nth v scale_logits [] in
  accepted texts -> 0 < C -> cls_contrasts <> [] ->
  Forall (fun m => Torch.has_shape C V m = true) maps ->
  Torch.has_shape V (S (length cls_contrasts)) scale_logits = true ->
  v < V -> Forall (fun w => 0 <= w)%R (removelast row) ->
  exists scores labels cls_logit,
    (query_cls_embed texts cls_embed (Some scale_logits)
       consider_uncertainty pre_normalized det).1 =
      Ok (scores, labels, cls_logit) /\
    (forall c, c < C ->
       (0 <= Spec.entry cls_logit c v <= Torch.sum (Spec.weights row))%R) /\
    ((List.last row 0 < 1 / 2)%R ->
       Spec.weights row =
         map (fun w => w / (Torch.sum (removelast row) + Torch.eps))%R
           (removelast row)) /\
    ((1 / 2 <= List.last row 0)%R ->
       forall c, c < C ->
         (0 <= Spec.entry cls_logit c v
          <= Torch.sum (removelast row))%R).
Proof.
  intros maps row Hacc HC Hheads Hmaps Hscale Hv Hw.
  assert (Hne : maps <> []).
  { unfold maps, head_maps. destruct cls_contrasts; [done|discriminate]. }
  assert (Hlen : length maps = length cls_contrasts).
  { unfold maps, head_maps. by rewrite length_map. }
  rewrite <- Hlen in Hscale.
  destruct (combine_weighted C V maps scale_logits HC Hne Hmaps Hscale)
    as (out & Hout & Hsh & Hent).
  destruct (scores_of_ok C V maps _ out HC Hout Hsh)
    as (scores & labels & Hs & _).
  exists scores, labels, out.
  assert (Hw' : Forall (fun w => 0 <= w)%R (Spec.weights row)).
  { destruct (Rlt_dec (List.last row 0%R) (1 / 2)%R) as [Hsup|Hunc].
    - destruct (weights_supervised row Hsup) as [Hws _].
      pose proof (sum_nonneg _ Hw) as Hs0. pose proof eps_pos as He.
      rewrite Hws, Forall_map. eapply Forall_impl; [exact Hw|].
      intros w Hw0. cbv beta. apply Rmult_le_pos; [done|].
      apply Rlt_le, Rinv_0_lt_compat. lra.
    - by rewrite (weights_uncertain row) by lra. }
  rewrite query_cls_embed_accepted by done. split_and!; [done| | |].
  - intros c Hc. rewrite (Hent c v Hc Hv). unfold Spec.mix. fold row.
    apply mix_bounds; [|done].
    by apply (head_maps_entries _ _ _ _ C V).
  - intros Hsup. by destruct (weights_supervised row Hsup).
  - intros Hunc c Hc. rewrite (Hent c v Hc Hv). unfold Spec.mix.
    fold row. rewrite (weights_uncertain row Hunc).
    apply mix_bounds; [|done].
    by apply (head_maps_entries _ _ _ _ C V).
Qed.

(** X14.  At a supervised location whose weights are all zero the
    division is by [1e-12] alone: the weights stay zero and the combined
    logit is zero for every class. *)
Theorem query_cls_embed_zero_weights (det : Detector)
    (texts : QueryTexts) (cls_embed : Tensor) (scale_logits : Mat)
    (consider_uncertainty pre_normalized : bool) (C V v : nat) :
  let maps := head_maps pre_normalized cls_embed (class_embeddings texts)
                cls_contrasts in
  let row := nth v scale_logits [] in
  accepted texts -> 0 < C -> cls_contrasts <> [] ->
  Forall (fun m => Torch.has_shape C V m = true) maps ->
  Torch.has_shape V (S (length cls_contrasts)) scale_logits = true ->
  v < V -> Forall (fun w => w = 0%R) (removelast row) ->
  (List.last row 0 < 1 / 2)%R ->
  exists scores labels cls_logit,
    (query_cls_embed texts cls_embed (Some scale_logits)
       consider_uncertainty pre_normalized det).1 =
      Ok (scores, labels, cls_logit) /\
    forall c, c < C -> Spec.entry cls_logit c v = 0%R.
Proof.
  intros maps row Hacc HC Hheads Hmaps Hscale Hv Hw Hsup.
  assert (Hne : maps <> []).
  { unfold maps, head_maps. destruct cls_contrasts; [done|discriminate]. }
  assert (Hlen : length maps = length cls_contrasts).
  { unfold maps, head_maps. by rewrite length_map. }
  rewrite <- Hlen in Hscale.
  destruct (combine_weighted C V maps scale_logits HC Hne Hmaps Hscale)
    as (out & Hout & Hsh & Hent).
  destruct (scores_of_ok C V maps _ out HC Hout Hsh)
    as (scores & labels & Hs & _).
  exists scores, labels, out.
  rewrite query_cls_embed_accepted by done. split; [done|].
  intros c Hc. rewrite (Hent c v Hc Hv). unfold Spec.mix. fold row.
  destruct (weights_supervised row Hsup) as [Hws _]. rewrite Hws.
  apply sum_zeros. by apply zero_weights_zero_terms.
Qed.

End LogitBounds.

(* ================================================================== *)
(** * Shapes the combination rejects                                   *)
(* ================================================================== *)

Lemma broadcast_mismatch {A B C} (f : A -> B -> Result C) (xs : list A)
    (ys : list B) :
  length xs <> length ys -> 2 <= length xs -> 2 <= length ys ->
  Torch.broadcast f xs ys = Raise RuntimeError.
Proof.
  intros Hne Hx Hy. unfold Torch.broadcast.
  rewrite (proj2 (Nat.eqb_neq _ _) Hne).
  destruct xs as [|x1 [|x2 xs]]; simpl in Hx; try lia.
  destruct ys as [|y1 [|y2 ys]]; simpl in Hy; try lia.
  reflexivity.
Qed.

Lemma combine_weight_count_mismatch (C V K : nat) (maps : list Mat)
    (scale : Mat) :
  0 < C -> 0 < V -> 2 <= length maps -> 2 <= K -> K <> length maps ->
  Forall (fun m => Torch.has_shape C V m = true) maps ->
  Torch.has_shape V (S K) scale = true ->
  combine maps (Some scale) = Raise RuntimeError.
Proof.
  intros HC HV HH HK Hne Hmaps Hscale.
  apply has_shape_spec in Hscale as [HVs Hrows].
  assert (Hmne : maps <> []) by (destruct maps; [simpl in HH; lia|done]).
  destruct (stack_ok C V maps Hmne Hmaps) as (Hst & HC' & HV').
  specialize (HV' HC).
  unfold combine. rewrite last_channel_ok; cycle 1.
  { eapply Forall_impl; [exact Hrows|]. intros [|? ?]; simpl; [lia|done]. }
  cbn [mbind Result_bind]. rewrite Hst. cbn [mbind Result_bind].
  rewrite HC', HV', masked_normalize_weights.
  unfold Torch.mul_weights, Torch.broadcast at 1.
  unfold Torch.permute_201 at 1. rewrite !length_map, length_seq, HVs.
  rewrite Nat.eqb_refl.
  destruct scale as [|row scale]; [simpl in HVs; lia|].
  destruct V as [|V']; [lia|].
  cbn [Torch.permute_201 seq map zip zip_with Py.comprehension fst snd].
  rewrite broadcast_mismatch; [reflexivity| | |].
  - rewrite length_map. pose proof (Forall_inv Hrows) as Hr.
    cbv beta in Hr. unfold Spec.weights.
    destruct (decide _); rewrite ?length_map, length_removelast; lia.
  - by rewrite length_map.
  - pose proof (Forall_inv Hrows) as Hr. cbv beta in Hr.
    unfold Spec.weights.
    destruct (decide _); rewrite ?length_map, length_removelast; lia.
Qed.

Section RejectedShapes.
Context `{FW : Framework}.

(** X15.  With at least two heads and [scale_logits] that carries at
    least two weight channels, but not one per head, the product of maps
    and weights cannot be broadcast: the query evaluates every head and
    then raises [RuntimeError]. *)
Theorem query_cls_embed_weight_count_mismatch (det : Detector)
    (texts : QueryTexts) (cls_embed : Tensor) (scale_logits : Mat)
    (consider_uncertainty pre_normalized : bool) (C V K : nat) :
  let maps := head_maps pre_normalized cls_embed (class_embeddings texts)
                cls_contrasts in
  accepted texts -> 0 < C -> 0 < V ->
  2 <= length cls_contrasts -> 2 <= K -> K <> length cls_contrasts ->
  Forall (fun m => Torch.has_shape C V m = true) maps ->
  Torch.has_shape V (S K) scale_logits = true ->
  let out := query_cls_embed texts cls_embed (Some scale_logits)
               consider_uncertainty pre_normalized det in
  out.1 = Raise RuntimeError /\
  out.2 = record_calls (query_calls texts pre_normalized) det.
Proof.
  intros maps Hacc HC HV HH HK Hne Hmaps Hscale out. subst out.
  assert (Hlen : length maps = length cls_contrasts).
  { unfold maps, head_maps. by rewrite length_map. }
  rewrite query_cls_embed_accepted by done. split; [|reflexivity].
  cbn [fst]. unfold scores_of. fold maps.
  rewrite (combine_weight_count_mismatch C V K) by (rewrite ?Hlen; done).
  reflexivity.
Qed.

End RejectedShapes.

(* ================================================================== *)
(** * Further properties of the prompt-driven detector                 *)
(* ================================================================== *)

Lemma repeat_batch_single (n : nat) (m : Mat) :
  Torch.repeat_batch n [m] = List.repeat m n.
Proof.
  unfold Torch.repeat_batch. induction n as [|n IH]; [reflexivity|].
  cbn [List.repeat concat app]. by rewrite IH.
Qed.

Lemma linear_raises (l : Torch.Linear) (x : Vec) (e : Exn) :
  Torch.linear l x = Raise e -> e = RuntimeError.
Proof.
  unfold Torch.linear. destruct (_ && _); [discriminate|congruence].
Qed.

Lemma residual_raises (a : Prompt.Adapter) (x : Vec) (e : Exn) :
  Prompt.residual a x = Raise e -> e = RuntimeError.
Proof.
  unfold Prompt.residual, Prompt.adapter_forward.
  destruct (Torch.linear (Prompt.fc1 a) x) as [h|e1] eqn:H1;
    cbn [mbind Result_bind].
  - destruct (Torch.linear (Prompt.fc2 a) (Torch.relu h)) as [y|e2] eqn:H2;
      cbn [mbind Result_bind].
    + unfold Torch.add.
      apply (broadcast_raises (fun e => e = RuntimeError)); [done|].
      discriminate.
    + intros [= <-]. by apply linear_raises in H2.
  - intros [= <-]. by apply linear_raises in H1.
Qed.

Lemma linear_width_mismatch (i o : nat) (l : Torch.Linear) (x : Vec) :
  Spec.linear_shape i o l -> 0 < o -> length x <> i ->
  Torch.linear l x = Raise RuntimeError.
Proof.
  intros (Hw & Hr & Hb) Ho Hx. unfold Torch.linear.
  destruct (Torch.weight l) as [|w ws]; [simpl in Hw; lia|].
  apply Forall_inv in Hr. cbn [forallb].
  rewrite (proj2 (Nat.eqb_neq _ _)) by lia. reflexivity.
Qed.

Section FurtherPromptProperties.
Context `{HR : HeadRoutines}.

Lemma prompt_extract_feat_plain (self : Prompt.Detector)
    (batch_inputs : Tensor) (samples : PyVal) (img0 : Tensor)
    (imgs : list Tensor) (ignored : T3) :
  Prompt.adapter self = None ->
  backbone_forward batch_inputs PyNone = (img0 :: imgs, ignored) ->
  let txt_feats := List.repeat (Prompt.embeddings self) (shape0 img0) in
  Prompt.extract_feat self batch_inputs samples =
    Ok (apply_neck (Prompt.mm_neck self) (img0 :: imgs) txt_feats,
        txt_feats).
Proof.
  intros Ha Hbb txt_feats. unfold Prompt.extract_feat.
  rewrite Hbb, Ha. cbn [mbind Result_bind Py.index0].
  by rewrite repeat_batch_single.
Qed.

(** X16.  Without an adapter the embedding table reaches the head as it
    is stored: [extract_feat] returns one copy of the table per image of
    the batch, with no normalization, and passes the same copies to the
    neck. *)
Theorem prompt_extract_feat_without_adapter (self : Prompt.Detector)
    (batch_inputs : Tensor) (samples : PyVal) (img0 : Tensor)
    (imgs : list Tensor) (ignored : T3) :
  Prompt.adapter self = None ->
  backbone_forward batch_inputs PyNone = (img0 :: imgs, ignored) ->
  exists img_feats txt_feats,
    Prompt.extract_feat self batch_inputs samples =
      Ok (img_feats, txt_feats) /\
    img_feats = apply_neck (Prompt.mm_neck self) (img0 :: imgs) txt_feats /\
    length txt_feats = shape0 img0 /\
    forall b, b < shape0 img0 ->
      nth b txt_feats [] = Prompt.embeddings self.
Proof.
  intros Ha Hbb. eexists _, _. split.
  - by apply (prompt_extract_feat_plain self _ _ img0 imgs ignored).
  - split_and!; [reflexivity|apply repeat_length|].
    intros b Hb. apply nth_repeat_lt. done.
Qed.

(** X17.  When the backbone returns no feature map, [extract_feat]
    cannot read the batch size and raises: [IndexError] from
    [img_feats[0]], or [RuntimeError] if the adapter has already
    rejected the embeddings; without an adapter it is [IndexError]. *)
Theorem prompt_extract_feat_without_feature_maps (self : Prompt.Detector)
    (batch_inputs : Tensor) (samples : PyVal) (ignored : T3) :
  backbone_forward batch_inputs PyNone = ([], ignored) ->
  exists e,
    Prompt.extract_feat self batch_inputs samples = Raise e /\
    (e = IndexError \/ e = RuntimeError) /\
    (Prompt.adapter self = None -> e = IndexError).
Proof.
  intros Hbb. unfold Prompt.extract_feat. rewrite Hbb.
  destruct (Prompt.adapter self) as [a|].
  - cbn [Py.comprehension mbind Result_bind].
    destruct (Py.comprehension (Prompt.residual a) (Prompt.embeddings self))
      as [ys|e] eqn:Hc; cbn [mbind Result_bind Py.index0].
    + exists IndexError. split_and!; [reflexivity|by left|done].
    + exists e. split_and!; [reflexivity| |done]. right. revert Hc.
      apply (comprehension_raises (fun e => e = RuntimeError)).
      intros x e'. apply residual_raises.
  - exists IndexError. split_and!; [reflexivity|by left|done].
Qed.

(** X18.  With the adapter on, an embedding table whose vectors do not
    have the dimension the adapter was built for (a file of another
    width, say) makes [extract_feat] raise [RuntimeError] in the first
    linear layer. *)
Theorem prompt_extract_feat_width_mismatch (self : Prompt.Detector)
    (a : Prompt.Adapter) (d : nat) (e0 : Vec) (es : Mat)
    (batch_inputs : Tensor) (samples : PyVal) :
  Prompt.adapter self = Some a -> Spec.adapter_shape d a -> 0 < d ->
  Prompt.embeddings self = e0 :: es -> length e0 <> d ->
  Prompt.extract_feat self batch_inputs samples = Raise RuntimeError.
Proof.
  intros Ha [H1 _] Hd Hemb Hlen. unfold Prompt.extract_feat.
  destruct (backbone_forward batch_inputs PyNone) as [img ign].
  assert (Hr : Prompt.residual a e0 = Raise RuntimeError).
  { unfold Prompt.residual, Prompt.adapter_forward.
    by rewrite (linear_width_mismatch d (d * 2)) by (try done; lia). }
  rewrite Ha, Hemb. cbn [Py.comprehension]. by rewrite Hr.
Qed.

(** X19.  The head's class count under the prompt-driven detector.
    When the extraction fails, [loss] has already set the count to
    [num_training_classes] while [predict] and [_forward] leave it as it
    was.  When the extraction succeeds, with or without an adapter,
    [loss] calls the head under [num_training_classes], [_forward] calls
    it under the count it found and does not change it, and [predict]
    sets the count to the configured [num_test_classes] and calls the
    head under it, whatever the number of rows of the embedding table. *)
Theorem prompt_head_class_count (self : Prompt.Detector)
    (batch_inputs : Tensor) (samples : PyVal) (rescale : bool)
    (head_num_classes : nat) :
  (forall e,
     Prompt.extract_feat self batch_inputs samples = Raise e ->
     PromptMethods.loss self batch_inputs samples head_num_classes =
       (Raise e, Prompt.num_training_classes self) /\
     PromptMethods._forward self batch_inputs samples head_num_classes =
       (Raise e, head_num_classes) /\
     PromptMethods.predict self batch_inputs samples rescale
       head_num_classes = (Raise e, head_num_classes)) /\
  (forall img_feats txt_feats,
     Prompt.extract_feat self batch_inputs samples =
       Ok (img_feats, txt_feats) ->
     PromptMethods.loss self batch_inputs samples head_num_classes =
       (Ok (bbox_head_loss (Prompt.num_training_classes self) img_feats
              txt_feats samples),
        Prompt.num_training_classes self) /\
     PromptMethods._forward self batch_inputs samples head_num_classes =
       (Ok (bbox_head_forward head_num_classes img_feats txt_feats),
        head_num_classes) /\
     PromptMethods.predict self batch_inputs samples rescale
       head_num_classes =
       (Ok (add_pred_to_datasample samples
              (bbox_head_predict (Prompt.num_test_classes self) img_feats
                 txt_feats samples rescale)),
        Prompt.num_test_classes self)).
Proof.
  split.
  - intros e He.
    unfold PromptMethods.loss, PromptMethods._forward,
      PromptMethods.predict. by rewrite He.
  - intros img_feats txt_feats He.
    unfold PromptMethods.loss, PromptMethods._forward,
      PromptMethods.predict. by rewrite He.
Qed.

End FurtherPromptProperties.


(* ================================================================== *)
(** * The further properties on concrete configurations                *)
(* ================================================================== *)

Lemma predict_failure_leaves_head_witness :
  bbox_head_num_classes
    (predict (FW := Example.framework) 2 (PyList []) true
       Example.cached).2 = 80.
Proof.
  exact (proj1 (predict_failure_leaves_head (FW := Example.framework)
                  Example.cached 2 (PyList []) true IndexError eq_refl)).
Defined.

Lemma extract_feat_ignores_tuples_witness :
  extract_feat (FW := Example.framework) 1
    (PyTuple [Example.sample ["cat"]]) Example.detector =
  (Raise TypeError, Example.detector).
Proof.
  exact (proj1 (extract_feat_ignores_tuples (FW := Example.framework)
                  Example.detector 1 [Example.sample ["cat"]]) eq_refl).
Defined.

Lemma query_cls_embed_rejects_before_any_call_witness :
  query_cls_embed (FW := Example.framework) (TextList []) 1 None false
    true Example.detector = (Raise IndexError, Example.detector).
Proof.
  apply (query_cls_embed_rejects_before_any_call
           (FW := Example.framework) Example.detector [] 1 None false true).
  intros (x & rest & H & _). discriminate.
Defined.

Lemma query_cls_embed_without_heads_witness :
  (query_cls_embed (FW := Example2.empty_backbone) (TextTensor [[1%R]]) 1
     None false true Example.detector).1 = Raise RuntimeError.
Proof.
  exact (proj1 (query_cls_embed_without_heads
                  (FW := Example2.empty_backbone) Example.detector
                  (TextTensor [[1%R]]) 1 false true eq_refl I)).
Defined.

Lemma query_cls_embed_mean_in_unit_interval_witness :
  exists scores labels cls_logit,
    (query_cls_embed (FW := Example.framework)
       (TextTensor [[1; 0]; [0; 1]]%R) 1 None false true
       Example.detector).1 = Ok (scores, labels, cls_logit) /\
    (0 <= nth 0 scores 0 <= 1)%R.
Proof.
  destruct (query_cls_embed_mean_in_unit_interval
              (FW := Example.framework) Example.detector
              (TextTensor [[1; 0]; [0; 1]]%R) 1 false true 2 1)
    as (scores & labels & cls_logit & H1 & _ & H2).
  - exact I.
  - lia.
  - discriminate.
  - by repeat constructor.
  - exists scores, labels, cls_logit. split; [exact H1|]. apply H2. lia.
Defined.

Lemma query_cls_embed_weighted_logit_bounds_witness :
  exists scores labels cls_logit,
    (query_cls_embed (FW := Example.framework)
       (TextTensor [[1; 0]; [0; 1]]%R) 1 (Some [[1; 3; 0]]%R) false true
       Example.detector).1 = Ok (scores, labels, cls_logit) /\
    (0 <= Spec.entry cls_logit 0 0
     <= Torch.sum (Spec.weights [1; 3; 0]))%R.
Proof.
  destruct (query_cls_embed_weighted_logit_bounds
              (FW := Example.framework) Example.detector
              (TextTensor [[1; 0]; [0; 1]]%R) 1 [[1; 3; 0]]%R false true
              2 1 0)
    as (scores & labels & cls_logit & H1 & H2 & _).
  - exact I.
  - lia.
  - discriminate.
  - by repeat constructor.
  - reflexivity.
  - lia.
  - cbn [nth removelast]. repeat constructor; lra.
  - exists scores, labels, cls_logit. split; [exact H1|].
    apply H2. lia.
Defined.

Lemma query_cls_embed_zero_weights_witness :
  exists scores labels cls_logit,
    (query_cls_embed (FW := Example.framework)
       (TextTensor [[1; 0]; [0; 1]]%R) 1 (Some [[0; 0; 0]]%R) false true
       Example.detector).1 = Ok (scores, labels, cls_logit) /\
    Spec.entry cls_logit 1 0 = 0%R.
Proof.
  destruct (query_cls_embed_zero_weights
              (FW := Example.framework) Example.detector
              (TextTensor [[1; 0]; [0; 1]]%R) 1 [[0; 0; 0]]%R false true
              2 1 0)
    as (scores & labels & cls_logit & H1 & H2).
  - exact I.
  - lia.
  - discriminate.
  - by repeat constructor.
  - reflexivity.
  - lia.
  - cbn [nth removelast]. by repeat constructor.
  - cbn [nth List.last]. lra.
  - exists scores, labels, cls_logit. split; [exact H1|]. apply H2. lia.
Defined.

Lemma query_cls_embed_weight_count_mismatch_witness :
  (query_cls_embed (FW := Example2.three_heads) (TextTensor [[1%R]]) 1
     (Some [[1; 1; 0]]%R) false true Example.detector).1 =
  Raise RuntimeError.
Proof.
  refine (proj1 (query_cls_embed_weight_count_mismatch
                   (FW := Example2.three_heads) Example.detector
                   (TextTensor [[1%R]]) 1 [[1; 1; 0]]%R false true 1 1 2
                   I _ _ _ _ _ _ _)).
  - lia.
  - lia.
  - simpl. lia.
  - lia.
  - simpl. lia.
  - by repeat constructor.
  - reflexivity.
Defined.

Lemma prompt_extract_feat_without_adapter_witness :
  exists img_feats txt_feats,
    Prompt.extract_feat (FW := Example.framework) Example2.plain_prompt 2
      PyNone = Ok (img_feats, txt_feats) /\
    length txt_feats = 2 /\
    nth 1 txt_feats [] = [[3; 4]; [0; 2]]%R.
Proof.
  destruct (prompt_extract_feat_without_adapter (FW := Example.framework)
              Example2.plain_prompt 2 PyNone 2 [] Example.text_features
              eq_refl eq_refl)
    as (img & txt & H1 & _ & H2 & H3).
  exists img, txt. split_and!; [exact H1|exact H2|].
  apply H3. simpl. lia.
Defined.

Lemma prompt_extract_feat_without_feature_maps_witness :
  exists e,
    Prompt.extract_feat (FW := Example2.empty_backbone)
      Example2.plain_prompt 2 PyNone = Raise e /\
    e = IndexError.
Proof.
  destruct (prompt_extract_feat_without_feature_maps
              (FW := Example2.empty_backbone) Example2.plain_prompt 2
              PyNone [] eq_refl)
    as (e & H1 & _ & H2).
  exists e. split; [exact H1|]. by apply H2.
Defined.

Lemma prompt_extract_feat_width_mismatch_witness :
  Prompt.extract_feat (FW := Example.framework) Example2.wide_prompt 2
    PyNone = Raise RuntimeError.
Proof.
  refine (prompt_extract_feat_width_mismatch (FW := Example.framework)
            Example2.wide_prompt _ 1 [3; 4]%R [[0; 2]]%R 2 PyNone
            eq_refl _ _ eq_refl _).
  - split; (split_and!; [reflexivity|by repeat constructor|reflexivity]).
  - lia.
  - simpl. lia.
Defined.

Lemma prompt_head_class_count_witness :
  (PromptMethods.predict (FW := Example.framework)
     Example2.adapted_prompt 2 PyNone true 80).2 = 5.
Proof.
  assert (Hshape : Spec.adapter_shape 1
            {| Prompt.fc1 := {| Torch.weight := [[1]; [1]]%R;
                                Torch.bias := [0; 0]%R |};
               Prompt.fc2 := {| Torch.weight := [[1; 1]]%R;
                                Torch.bias := [0%R] |} |}).
  { split; (split_and!; [reflexivity|by repeat constructor|reflexivity]). }
  assert (Hemb : Forall (fun e : Vec => length e = 1)
                   (Prompt.embeddings Example2.adapted_prompt)).
  { by repeat constructor. }
  pose proof (prompt_extract_feat_ok (FW := Example.framework)
                Example2.adapted_prompt _ 1 2 PyNone 2 []
                Example.text_features eq_refl Hshape Hemb eq_refl) as Hex.
  destruct (prompt_head_class_count (HR := Example2.head_routines)
              Example2.adapted_prompt 2 PyNone true 80) as [_ H].
  destruct (H _ _ Hex) as (_ & _ & Hp).
  by rewrite Hp.
Defined.


